(** * Ban detection, behaviour synthesis and session control

    A shallow embedding of the scraper's TypeScript sources
    ([ban-detector.ts], [human-behavior.ts], [config.ts], [scraper.ts],
    [mercari-scraper.ts], [index.ts]) and the properties of its
    specification that were checked on it.

    Conventions of the embedding:
    - a JavaScript [number] that the code only ever treats as an integer
      (status codes, counters, clock readings in ms) is a [Z]; the
      [number] that [parseInt] makes of a string of digits is the nearest
      double, as an integer, or [Infinity];
    - a [number] of the behaviour synthesizer (coordinates, delays, random
      draws) is a real [R]: IEEE rounding is not modelled, and an infinity
      only where the code can produce one from a draw, in [randomDelay];
    - [T | null] is [option T];
    - a call that may throw returns a [Completion];
    - [Math.random()] and the page are inputs: the random source is the
      stream of the values it returns, in call order. *)

From Stdlib Require Import ZArith Reals Lra Lia Bool List String Ascii.
From Stdlib Require Import DecimalString DecimalPos.
From stdpp Require Import base option strings gmap.
Import ListNotations.

Local Open Scope Z_scope.
Local Open Scope string_scope.

(** ** The platform: strings, numbers, exceptions, the page *)

Module JS.

(** [s.includes(sub)] *)
Fixpoint includes (s sub : string) : bool :=
  if String.prefix sub s then true
  else match s with
       | EmptyString => false
       | String _ s' => includes s' sub
       end.

(** [`${n}`] for an integer [n] *)
Definition toString (n : Z) : string :=
  NilZero.string_of_int (Z.to_int n).

(** [Math.floor(x)] *)
Definition Math_floor (x : R) : Z := Zfloor x.

(** [Math.round(x)]: the nearest integer, a tie going up *)
Definition Math_round (x : R) : Z := Zfloor (x + / 2).

(** What [parseInt] returns for a string of decimal digits: a [number]
    that is an integer, or [Infinity]. *)
Inductive Integral : Type :=
| Whole (n : Z)
| Infinity.

(** The [number] for the non-negative integer [n]: [n] itself while it
    has at most 53 binary digits; a longer one is rounded to 53
    significant binary digits, to the nearest such integer, a tie going to
    the one whose last kept digit is even; a result of 2^1024 or more is
    [Infinity]. *)
Definition toNumber (n : Z) : Integral :=
  let e := Z.log2 n - 52 in
  if (e <=? 0)%Z then Whole n
  else
    let q := Z.shiftr n e in
    let r := n - Z.shiftl q e in
    let half := Z.shiftl 1 (e - 1) in
    let q :=
      if (half <? r)%Z || ((r =? half)%Z && Z.odd q) then q + 1 else q in
    if (Z.shiftl q e <? 2 ^ 1024)%Z then Whole (Z.shiftl q e) else Infinity.

Inductive Exn : Type :=
| TypeError (message : string)
| Error (message : string).

Definition message_of (e : Exn) : string :=
  match e with TypeError m | Error m => m end.

(** The outcome of a call: a value, or a thrown exception. *)
Inductive Completion (A : Type) : Type :=
| Normal (a : A)
| Throw (e : Exn).
Arguments Normal {A} a.
Arguments Throw {A} e.

Record Box := { box_x : R; box_y : R; box_width : R; box_height : R }.

Record ElementHandle := {
  textContent : option string;
  boundingBox : option Box
}.

Record ViewportSize := { vp_width : R; vp_height : R }.

(** What the code reads from a Playwright [Page] after navigation. *)
Record Page := {
  query : string -> option ElementHandle;      (* page.$(selector) *)
  queryAll : string -> list ElementHandle;     (* page.$$(selector) *)
  content : string;                            (* page.content() *)
  url : string;                                (* page.url() *)
  viewportSize : option ViewportSize           (* page.viewportSize() *)
}.

End JS.

(** ** A model of the platform's URL parser

    [new URL(input)] without a base, as far as the host name: the input is
    stripped, a scheme is required (the standard's "scheme start", "scheme"
    and "no scheme" states: without one the parse fails, which the
    constructor reports as a [TypeError]), and the host is read from the
    authority.  The host is taken as written, in lower case: IPv4, IPv6,
    IDNA and percent normalisation, and the failures of the host and port
    parsers other than an empty host, are left out. *)

Module WHATWG.

Definition c0_or_space (c : ascii) : bool := (nat_of_ascii c <=? 32)%nat.

Definition tab_or_newline (c : ascii) : bool :=
  let n := nat_of_ascii c in
  ((n =? 9) || (n =? 10) || (n =? 13))%nat.

Definition is_alpha (c : ascii) : bool :=
  let n := nat_of_ascii c in
  (((65 <=? n) && (n <=? 90)) || ((97 <=? n) && (n <=? 122)))%nat.

Definition is_digit (c : ascii) : bool :=
  let n := nat_of_ascii c in ((48 <=? n) && (n <=? 57))%nat.

Definition lower (c : ascii) : ascii :=
  let n := nat_of_ascii c in
  if ((65 <=? n) && (n <=? 90))%nat then ascii_of_nat (n + 32) else c.

Definition is_char (k : nat) (c : ascii) : bool := (nat_of_ascii c =? k)%nat.

Fixpoint drop_while (p : ascii -> bool) (l : list ascii) : list ascii :=
  match l with
  | c :: l' => if p c then drop_while p l' else l
  | [] => []
  end.

Fixpoint take_until (p : ascii -> bool) (l : list ascii) : list ascii :=
  match l with
  | c :: l' => if p c then [] else c :: take_until p l'
  | [] => []
  end.

(** Leading and trailing C0 controls and spaces go, then every tab and
    newline. *)
Definition strip (l : list ascii) : list ascii :=
  let l := drop_while c0_or_space l in
  let l := rev (drop_while c0_or_space (rev l)) in
  List.filter (fun c => negb (tab_or_newline c)) l.

(** The scheme state: letters, digits, [+], [-], [.] up to a colon. *)
Fixpoint scheme_state (buffer l : list ascii)
    : option (list ascii * list ascii) :=
  match l with
  | c :: l' =>
    if is_alpha c || is_digit c || is_char 43 c || is_char 45 c
       || is_char 46 c
    then scheme_state (buffer ++ [lower c]) l'
    else if is_char 58 c then Some (buffer, l')
    else None
  | [] => None
  end.

(** The scheme start state. *)
Definition scheme_start (l : list ascii)
    : option (list ascii * list ascii) :=
  match l with
  | c :: l' => if is_alpha c then scheme_state [lower c] l' else None
  | [] => None
  end.

Definition special_schemes : list string :=
  ["ftp"; "file"; "http"; "https"; "ws"; "wss"].

Definition is_special (scheme : list ascii) : bool :=
  existsb (String.eqb (string_of_list_ascii scheme)) special_schemes.

Definition slash (c : ascii) : bool := is_char 47 c.
Definition slash_or_backslash (c : ascii) : bool :=
  is_char 47 c || is_char 92 c.

(** The authority ends at [/], [?] or [#], and at a backslash in a
    special scheme. *)
Definition ends_authority (special : bool) (c : ascii) : bool :=
  is_char 47 c || is_char 63 c || is_char 35 c
  || (special && is_char 92 c).

(** What follows the last [@], if any. *)
Fixpoint after_last_at (l : list ascii) : list ascii :=
  match l with
  | c :: l' =>
    if existsb (is_char 64) l' then after_last_at l'
    else if is_char 64 c then l' else l
  | [] => []
  end.

Definition host_of_authority (authority : list ascii) : list ascii :=
  map lower (take_until (is_char 58) (after_last_at authority)).

Definition hostname (input : string) : option string :=
  match scheme_start (strip (list_ascii_of_string input)) with
  | None => None
  | Some (scheme, rest) =>
    if String.eqb (string_of_list_ascii scheme) "file" then
      (* the file host follows two slashes *)
      match rest with
      | c1 :: c2 :: rest' =>
        if slash_or_backslash c1 && slash_or_backslash c2
        then Some (string_of_list_ascii
                     (map lower (take_until (ends_authority true) rest')))
        else Some ""
      | _ => Some ""
      end
    else if is_special scheme then
      (* any run of slashes, then an authority with a host *)
      let rest := drop_while slash_or_backslash rest in
      match host_of_authority (take_until (ends_authority true) rest) with
      | [] => None
      | host => Some (string_of_list_ascii host)
      end
    else
      (* an authority only after two slashes *)
      match rest with
      | c1 :: c2 :: rest' =>
        if slash c1 && slash c2
        then Some (string_of_list_ascii
                     (host_of_authority
                        (take_until (ends_authority false) rest')))
        else Some ""
      | _ => Some ""
      end
  end.

End WHATWG.

(** ** ban-detector.ts *)

Module BanDetector.
Import JS.

Record BanSignals := {
  captchaDetected : bool;
  httpError : option Z;
  unexpectedRedirect : bool;
  contentMissing : bool;
  jsChallenge : bool;
  responseTimeMs : Z;
  blockedUrl : option string
}.

(** The double quote of the attribute selectors. *)
Definition dquote : ascii := ascii_of_nat 34.

Definition CAPTCHA_SELECTORS : list string :=
  [ "iframe[src*=" ++ String dquote ("recaptcha" ++ String dquote "]");
    "iframe[src*=" ++ String dquote ("captcha" ++ String dquote "]");
    "iframe[src*=" ++ String dquote ("hcaptcha" ++ String dquote "]");
    "#captcha";
    ".g-recaptcha";
    ".h-captcha";
    "[data-sitekey]" ].

Definition JS_CHALLENGE_INDICATORS : list string :=
  [ "Checking your browser";
    "Please wait";
    "Just a moment";
    "Verify you are human";
    "DDoS protection by" ].

Definition BLOCK_PAGE_PATTERNS : list string :=
  [ "/error"; "/block"; "/access-denied"; "/forbidden" ].

(** Field updates of the mutable [signals] object. *)
Definition set_captchaDetected (b : bool) (s : BanSignals) : BanSignals :=
  {| captchaDetected := b; httpError := httpError s;
     unexpectedRedirect := unexpectedRedirect s;
     contentMissing := contentMissing s; jsChallenge := jsChallenge s;
     responseTimeMs := responseTimeMs s; blockedUrl := blockedUrl s |}.

Definition set_jsChallenge (b : bool) (s : BanSignals) : BanSignals :=
  {| captchaDetected := captchaDetected s; httpError := httpError s;
     unexpectedRedirect := unexpectedRedirect s;
     contentMissing := contentMissing s; jsChallenge := b;
     responseTimeMs := responseTimeMs s; blockedUrl := blockedUrl s |}.

Definition set_httpError (e : option Z) (s : BanSignals) : BanSignals :=
  {| captchaDetected := captchaDetected s; httpError := e;
     unexpectedRedirect := unexpectedRedirect s;
     contentMissing := contentMissing s; jsChallenge := jsChallenge s;
     responseTimeMs := responseTimeMs s; blockedUrl := blockedUrl s |}.

(** [signals.unexpectedRedirect = true; signals.blockedUrl = currentUrl] *)
Definition set_redirect (currentUrl : string) (s : BanSignals) : BanSignals :=
  {| captchaDetected := captchaDetected s; httpError := httpError s;
     unexpectedRedirect := true;
     contentMissing := contentMissing s; jsChallenge := jsChallenge s;
     responseTimeMs := responseTimeMs s; blockedUrl := Some currentUrl |}.

Definition found (element : option ElementHandle) : bool :=
  match element with Some _ => true | None => false end.

Section DetectBanSignals.

(** [new URL(s).hostname]; [None] when the constructor throws its
    [TypeError].  The constructor belongs to the platform, so the
    detector is stated over any such function. *)
Variable URL_hostname : string -> option string.

(** [now] is the reading of [Date.now()] when the record is created.
    The three [for ... break] scans stop at the first hit, which is
    [existsb]; the [logWarn] calls leave no mark on the result. *)
Definition detectBanSignals
    (page : Page) (now startTime : Z) (expectedUrl : string)
    : Completion BanSignals :=
  let signals :=
    {| captchaDetected := false; httpError := None;
       unexpectedRedirect := false; contentMissing := false;
       jsChallenge := false; responseTimeMs := now - startTime;
       blockedUrl := None |} in
  (* Check for CAPTCHA *)
  let signals :=
    if existsb (fun selector => found (query page selector))
               CAPTCHA_SELECTORS
    then set_captchaDetected true signals else signals in
  (* Check for JavaScript challenge *)
  let pageContent := content page in
  let signals :=
    if existsb (fun indicator => includes pageContent indicator)
               JS_CHALLENGE_INDICATORS
    then set_jsChallenge true signals else signals in
  (* Check for unexpected redirect to block page *)
  let currentUrl := url page in
  let signals :=
    if existsb (fun pattern => includes currentUrl pattern)
               BLOCK_PAGE_PATTERNS
    then set_redirect currentUrl signals else signals in
  (* Check if we're on a completely different domain *)
  match URL_hostname expectedUrl with
  | None => Throw (TypeError "Invalid URL")
  | Some expectedDomain =>
    match URL_hostname currentUrl with
    | None => Throw (TypeError "Invalid URL")
    | Some currentDomain =>
      Normal
        (if negb (String.eqb expectedDomain currentDomain)
            && negb (includes currentDomain expectedDomain)
         then set_redirect currentUrl signals
         else signals)
    end
  end.

End DetectBanSignals.

Definition BLOCKING_STATUSES : list Z :=
  [403; 429; 503; 520; 521; 522; 523; 524].

Definition isBlockingStatus (status : Z) : bool :=
  existsb (Z.eqb status) BLOCKING_STATUSES.

(** The ['response'] handler of [setupResponseMonitor]: the closure
    variable [lastHttpError] is the state. *)
Definition onResponse (lastHttpError : option Z) (status : Z) : option Z :=
  if isBlockingStatus status then Some status else lastHttpError.

(** [getHttpError()] once the responses of a visit were delivered to the
    handler, in the order they were observed. *)
Definition getHttpError (responses : list Z) : option Z :=
  fold_left onResponse responses None.

Definition isBanned (signals : BanSignals) : bool :=
  captchaDetected signals
  || bool_decide (httpError signals <> None)
  || unexpectedRedirect signals
  || jsChallenge signals.

Definition getBanReason (signals : BanSignals) : option string :=
  if captchaDetected signals then Some "CAPTCHA"
  else match httpError signals with
  | Some code => Some ("HTTP " ++ toString code)
  | None =>
    if jsChallenge signals then Some "JS Challenge"
    else if unexpectedRedirect signals then
      Some ("Redirect to " ++
            match blockedUrl signals with Some u => u | None => "null" end)
    else None
  end.

End BanDetector.

(** ** human-behavior.ts *)

Module HumanBehavior.
Import JS.
Local Open Scope R_scope.

Record HumanBehaviorOptions := {
  pattern : string;        (* 'A' | 'B' | 'C' for the type checker only *)
  minDelay : R;
  maxDelay : R
}.

(** What a behaviour does to the page, in the order it does it. *)
Inductive Action : Type :=
| WaitForTimeout (ms : R)        (* page.waitForTimeout(ms) *)
| MouseMove (x y : R)            (* page.mouse.move(x, y) *)
| MouseWheel (dx dy : R).        (* page.mouse.wheel(dx, dy) *)

(** A behaviour starts after [n] draws of [Math.random()] and yields its
    completion, the number of draws after it, and the actions it
    performed. *)
Definition M (A : Type) : Type := nat -> Completion A * nat * list Action.

Definition ret {A} (a : A) : M A := fun n => (Normal a, n, []).

Definition bind {A B} (m : M A) (f : A -> M B) : M B :=
  fun n =>
    match m n with
    | (Normal a, n1, t1) =>
      match f a n1 with
      | (r, n2, t2) => (r, n2, (t1 ++ t2)%list)
      end
    | (Throw e, n1, t1) => (Throw e, n1, t1)
    end.

Notation "x <- m ;; k" := (bind m (fun x => k))
  (at level 100, m at next level, right associativity).
Notation "m ;; k" := (bind m (fun _ => k))
  (at level 100, right associativity).

Definition throw {A} (e : Exn) : M A := fun n => (Throw e, n, []).

Definition perform (a : Action) : M unit := fun n => (Normal tt, n, [a]).

Definition trace_of {A} (r : Completion A * nat * list Action)
  : list Action := snd r.
Definition draws_of {A} (r : Completion A * nat * list Action)
  : nat := snd (fst r).
Definition completion_of {A} (r : Completion A * nat * list Action)
  : Completion A := fst (fst r).

(** [for (let i = 0; i < count; i++) body] *)
Fixpoint repeat_ (count : nat) (body : M unit) : M unit :=
  match count with
  | O => ret tt
  | S k => body ;; repeat_ k body
  end.

(** [for (const x of xs) body(x)] *)
Fixpoint for_of {A} (xs : list A) (body : A -> M unit) : M unit :=
  match xs with
  | [] => ret tt
  | x :: xs' => body x ;; for_of xs' body
  end.

(** The value [normal] of [randomDelay]: a real number, or an infinity. *)
Inductive Sample : Type :=
| Real (z : R)
| PosInfinity
| NegInfinity.

(** [Math.sqrt(-2 * Math.log(u1)) * Math.cos(2 * Math.PI * u2)], the
    Box-Muller transform of the two uniform draws.  [Math.random()] may
    return 0, and [Math.log(0)] is [-Infinity]: the square root is then
    [Infinity] and the product is the infinity with the sign of the
    cosine.  The cosine of a double is never zero.  The real cosine is
    zero at [u2 = 1/4] and [u2 = 3/4]; there the code evaluates the cosine
    just below the zero, [Math.PI] lying below the real number, and gets
    the sign of the sine: [Math.cos(2 * Math.PI * 0.25)] is [6.1e-17] and
    [Math.cos(2 * Math.PI * 0.75)] is [-1.8e-16].  Only draws in [0, 1)
    are meant: [Math.random()] returns no other. *)
Definition boxMuller (u1 u2 : R) : Sample :=
  let c := cos (2 * PI * u2) in
  if Rlt_dec 0 u1 then Real (sqrt (-2 * ln u1) * c)
  else if Rlt_dec 0 c then PosInfinity
  else if Rlt_dec c 0 then NegInfinity
  else if Rlt_dec 0 (sin (2 * PI * u2)) then PosInfinity
  else NegInfinity.

(** [normal * 0.2 + 0.5] *)
Definition normalize (normal : Sample) : Sample :=
  match normal with
  | Real z => Real (z * 0.2 + 0.5)
  | PosInfinity => PosInfinity
  | NegInfinity => NegInfinity
  end.

(** [Math.max(0, Math.min(1, normalized))], on a real number and on the
    value of [randomDelay]. *)
Definition clamp01 (normalized : R) : R := Rmax 0 (Rmin 1 normalized).

Definition clamp (normalized : Sample) : R :=
  match normalized with
  | Real x => clamp01 x
  | PosInfinity => 1
  | NegInfinity => 0
  end.

(** The value [delay] of [randomDelay] from the two uniform draws [u1]
    and [u2]. *)
Definition delayOf (min max u1 u2 : R) : R :=
  let normal := boxMuller u1 u2 in
  (* Map normal distribution to our range (mean at center, std of 0.2) *)
  let normalized := normalize normal in
  let clamped := clamp normalized in
  min + clamped * (max - min).

Record Point := { x : Z; y : Z }.

Definition cubicBezier (t p0 p1 p2 p3 : R) : R :=
  let t2 := t * t in
  let t3 := t2 * t in
  let mt := 1 - t in
  let mt2 := mt * mt in
  let mt3 := mt2 * mt in
  mt3 * p0 + 3 * mt2 * t * p1 + 3 * mt * t2 * p2 + t3 * p3.

(** The parameter of the [i]-th sample. *)
Definition paramOf (steps : Z) (i : nat) : R := INR i / IZR steps.

(** The body of the sampling loop at parameter [t]. *)
Definition pointAt (startX startY cp1x cp1y cp2x cp2y endX endY t : R)
  : Point :=
  let x := cubicBezier t startX cp1x cp2x endX in
  let y := cubicBezier t startY cp1y cp2y endY in
  {| x := Math_round x; y := Math_round y |}.

Section WithPage.

(** [random n] is what the [n]-th call of [Math.random()] returns. *)
Variable random : nat -> R.
Variable page : Page.

Definition Math_random : M R := fun n => (Normal (random n), S n, []).

Definition waitForTimeout (ms : R) : M unit := perform (WaitForTimeout ms).
Definition mouse_move (x y : R) : M unit := perform (MouseMove x y).
Definition mouse_wheel (dx dy : R) : M unit := perform (MouseWheel dx dy).

Definition randomDelay (min max : R) : M unit :=
  u1 <- Math_random ;;
  u2 <- Math_random ;;
  let delay := delayOf min max u1 u2 in
  waitForTimeout (IZR (Math_round delay)).

Definition humanScroll : M unit :=
  r <- Math_random ;;
  let scrollCount := (Math_floor (r * 3) + 2)%Z in
  repeat_ (Z.to_nat scrollCount)
    (r <- Math_random ;;
     let scrollAmount := r * 300 + 100 in
     mouse_wheel 0 scrollAmount ;;
     randomDelay 300 800) ;;
  (* Sometimes scroll back up a bit *)
  r <- Math_random ;;
  if Rlt_dec 0.7 r then
    r <- Math_random ;;
    let scrollBack := - (r * 100 + 50) in
    mouse_wheel 0 scrollBack ;;
    randomDelay 200 500
  else ret tt.

(** [steps] is an integer at the only call site; the loop runs for
    [i = 0, ..., steps].  (For [steps = 0] JavaScript divides zero by
    zero; the call site draws [steps >= 10].) *)
Definition generateBezierPoints (startX startY endX endY : R) (steps : Z)
  : M (list Point) :=
  r1 <- Math_random ;;
  let cp1x := startX + (endX - startX) * 0.3 + (r1 - 0.5) * 100 in
  r2 <- Math_random ;;
  let cp1y := startY + (endY - startY) * 0.1 + (r2 - 0.5) * 100 in
  r3 <- Math_random ;;
  let cp2x := startX + (endX - startX) * 0.7 + (r3 - 0.5) * 100 in
  r4 <- Math_random ;;
  let cp2y := startY + (endY - startY) * 0.9 + (r4 - 0.5) * 100 in
  ret (map (fun i =>
              pointAt startX startY cp1x cp1y cp2x cp2y endX endY
                      (paramOf steps i))
           (seq 0 (Z.to_nat (steps + 1)))).

(** The number of steps drawn by [humanMouseMove]. *)
Definition stepsOf (r : R) : Z := (Math_floor (r * 20) + 10)%Z.

Definition humanMouseMove (targetX targetY : R) : M unit :=
  match viewportSize page with
  | None => ret tt
  | Some viewportSize =>
    r <- Math_random ;;
    let startX := r * vp_width viewportSize * 0.5 in
    r <- Math_random ;;
    let startY := r * vp_height viewportSize * 0.5 in
    r <- Math_random ;;
    let steps := stepsOf r in
    points <- generateBezierPoints startX startY targetX targetY steps ;;
    for_of points (fun point =>
      mouse_move (IZR (x point)) (IZR (y point)) ;;
      r <- Math_random ;;
      waitForTimeout (r * 30 + 10))
  end.

(** [links[i]] for the number [i]: [undefined] off the array, and
    calling a method on [undefined] throws. *)
Definition element_at (links : list ElementHandle) (i : Z)
  : M ElementHandle :=
  if (i <? 0)%Z then throw (TypeError "Cannot read properties of undefined")
  else match nth_error links (Z.to_nat i) with
       | Some link => ret link
       | None => throw (TypeError "Cannot read properties of undefined")
       end.

Definition applyHumanBehavior (options : HumanBehaviorOptions) : M unit :=
  if String.eqb (pattern options) "A" then
    (* Mechanical: fixed delay only *)
    waitForTimeout 2000
  else if String.eqb (pattern options) "B" then
    (* Basic: random delay + scroll *)
    randomDelay (minDelay options) (maxDelay options) ;;
    humanScroll ;;
    randomDelay 500 1500
  else if String.eqb (pattern options) "C" then
    (* Advanced: full human simulation *)
    randomDelay (minDelay options) (maxDelay options) ;;
    (match viewportSize page with
     | Some viewportSize =>
       r <- Math_random ;;
       let targetX := r * vp_width viewportSize * 0.8
                      + vp_width viewportSize * 0.1 in
       r <- Math_random ;;
       let targetY := r * vp_height viewportSize * 0.8
                      + vp_height viewportSize * 0.1 in
       humanMouseMove targetX targetY
     | None => ret tt
     end) ;;
    humanScroll ;;
    randomDelay 1000 3000 ;;
    (* Sometimes hover over random elements *)
    r <- Math_random ;;
    if Rlt_dec 0.5 r then
      let links := queryAll page "a" in
      if (0 <? length links)%nat then
        r <- Math_random ;;
        randomLink <- element_at links
                        (Math_floor (r * INR (length links))) ;;
        match boundingBox randomLink with
        | Some box =>
          humanMouseMove (box_x box + box_width box / 2)
                         (box_y box + box_height box / 2) ;;
          randomDelay 200 500
        | None => ret tt
        end
      else ret tt
    else ret tt
  else
    (* no case of the switch matches *)
    ret tt.

End WithPage.

(** Counting the actions of a trace. *)
Definition is_move (a : Action) : bool :=
  match a with MouseMove _ _ => true | _ => false end.

Definition is_wheel (a : Action) : bool :=
  match a with MouseWheel _ _ => true | _ => false end.

(** A wheel action that scrolls down the page. *)
Definition is_forward_wheel (a : Action) : bool :=
  match a with
  | MouseWheel _ dy => if Rlt_dec 0 dy then true else false
  | _ => false
  end.

Definition count (p : Action -> bool) (t : list Action) : nat :=
  length (List.filter p t).

End HumanBehavior.

(** ** config.ts *)

Module Config.
Import JS.

Record ProxyConfig := {
  server : string;
  username : option string;
  password : option string
}.

Record Geolocation := { latitude : R; longitude : R }.

Record FingerprintConfig := {
  userAgent : string;
  locale : string;
  timezoneId : string;
  geolocation : option Geolocation
}.

Record HumanBehaviorConfig := {
  hb_enabled : bool;
  hb_pattern : string;      (* 'A' | 'B' | 'C' for the type checker only *)
  hb_minDelay : R;
  hb_maxDelay : R
}.

Record LoggingConfig := {
  log_enabled : bool;
  log_level : string;
  log_outputDir : string
}.

Record ScraperConfig := {
  headless : bool;
  stealthEnabled : bool;
  proxy : option ProxyConfig;
  fingerprint : FingerprintConfig;
  humanBehavior : HumanBehaviorConfig;
  logging : LoggingConfig
}.

Definition defaultJapanFingerprint : FingerprintConfig :=
  {| userAgent := "Mozilla/5.0 (Windows NT 10.0; Win64; x64) AppleWebKit/537.36 (KHTML, like Gecko) Chrome/120.0.0.0 Safari/537.36";
     locale := "ja-JP";
     timezoneId := "Asia/Tokyo";
     geolocation := Some {| latitude := 35.6762; longitude := 139.6503 |} |}.

(** [v || d] for a string that may be [undefined]: the empty string is
    falsy too. *)
Definition orDefault (v : option string) (d : string) : string :=
  match v with
  | Some s => if String.eqb s "" then d else s
  | None => d
  end.

(** [v !== 'false'] *)
Definition notFalse (v : option string) : bool :=
  match v with
  | Some s => negb (String.eqb s "false")
  | None => true
  end.

Section LoadConfig.

(** [parseInt(s, 10)], the platform's.  A result that is not a number
    has no counterpart among the reals of the embedding. *)
Variable parseInt10 : string -> R.

(** [env] is [process.env]. *)
Definition loadConfig (env : gmap string string) : ScraperConfig :=
  let proxyServer := env !! "PROXY_SERVER" in
  {| headless := notFalse (env !! "HEADLESS");
     stealthEnabled := notFalse (env !! "STEALTH_ENABLED");
     proxy :=
       match proxyServer with
       | Some s =>
         if String.eqb s "" then None
         else Some {| server := s;
                      username := env !! "PROXY_USER";
                      password := env !! "PROXY_PASS" |}
       | None => None
       end;
     fingerprint := defaultJapanFingerprint;
     humanBehavior :=
       {| hb_enabled := notFalse (env !! "HUMAN_BEHAVIOR_ENABLED");
          hb_pattern := orDefault (env !! "HUMAN_BEHAVIOR_PATTERN") "B";
          hb_minDelay := parseInt10 (orDefault (env !! "MIN_DELAY") "1000");
          hb_maxDelay := parseInt10 (orDefault (env !! "MAX_DELAY") "5000")
       |};
     logging :=
       {| log_enabled := notFalse (env !! "LOGGING_ENABLED");
          log_level := orDefault (env !! "LOG_LEVEL") "info";
          log_outputDir := orDefault (env !! "LOG_OUTPUT_DIR") "./logs" |}
  |}.

End LoadConfig.

(** [Partial<ScraperConfig>]: the keys that are present. *)
Record PartialScraperConfig := {
  p_headless : option bool;
  p_stealthEnabled : option bool;
  p_proxy : option (option ProxyConfig);
  p_fingerprint : option FingerprintConfig;
  p_humanBehavior : option HumanBehaviorConfig;
  p_logging : option LoggingConfig
}.

(** [{ ...config, ...customConfig }] *)
Definition spread (config : ScraperConfig) (customConfig : PartialScraperConfig)
  : ScraperConfig :=
  {| headless := default (headless config) (p_headless customConfig);
     stealthEnabled :=
       default (stealthEnabled config) (p_stealthEnabled customConfig);
     proxy := default (proxy config) (p_proxy customConfig);
     fingerprint := default (fingerprint config) (p_fingerprint customConfig);
     humanBehavior :=
       default (humanBehavior config) (p_humanBehavior customConfig);
     logging := default (logging config) (p_logging customConfig) |}.

(** The [humanBehavior] object as [applyHumanBehavior] reads it. *)
Definition optionsOf (hb : HumanBehaviorConfig)
  : HumanBehavior.HumanBehaviorOptions :=
  {| HumanBehavior.pattern := hb_pattern hb;
     HumanBehavior.minDelay := hb_minDelay hb;
     HumanBehavior.maxDelay := hb_maxDelay hb |}.

End Config.

(** ** scraper.ts *)

Module Scraper.
Import JS BanDetector Config.

Record ScrapeResult := {
  success : bool;
  banSignals : BanSignals;
  error : option string
}.

(** The fields of a [BaseScraper]; of the three handles only whether
    they are set matters to the code modelled here. *)
Record BaseScraper := {
  browser : bool;
  context : bool;
  page : bool;
  config : ScraperConfig;
  sessionId : string;
  requestCount : Z;
  sessionStartTime : Z;
  lastRequestTime : Z
}.

(** [new BaseScraper(customConfig)], with the module-level [config], the
    identifier from [generateSessionId()] and the reading of
    [Date.now()]. *)
Definition constructor (moduleConfig : ScraperConfig)
    (customConfig : option PartialScraperConfig)
    (newSessionId : string) (now : Z) : BaseScraper :=
  {| browser := false; context := false; page := false;
     config :=
       match customConfig with
       | Some c => spread moduleConfig c
       | None => moduleConfig
       end;
     sessionId := newSessionId;
     requestCount := 0;
     sessionStartTime := now;
     lastRequestTime := 0 |}.

Definition createContext (this : BaseScraper) : Completion BaseScraper :=
  if negb (browser this) then Throw (Error "Browser not initialized")
  else Normal {| browser := browser this; context := true; page := true;
                 config := config this; sessionId := sessionId this;
                 requestCount := requestCount this;
                 sessionStartTime := sessionStartTime this;
                 lastRequestTime := lastRequestTime this |}.

(** [initialize()] when the browser launches. *)
Definition initialize (this : BaseScraper) : Completion BaseScraper :=
  createContext
    {| browser := true; context := context this; page := page this;
       config := config this; sessionId := sessionId this;
       requestCount := requestCount this;
       sessionStartTime := sessionStartTime this;
       lastRequestTime := lastRequestTime this |}.

(** What one call of [navigate] gets from outside the scraper. *)
Record Visit := {
  startTime : Z;                 (* Date.now() on entry *)
  goto : Completion unit;        (* how page.goto(url) completes *)
  random : nat -> R;             (* Math.random() *)
  loaded : Page;                 (* the page once loaded *)
  responses : list Z;            (* statuses seen by the response monitor *)
  detectTime : Z;                (* Date.now() inside detectBanSignals *)
  endTime : Z;                   (* Date.now() after detection *)
  catchTime : Z                  (* Date.now() in the catch block *)
}.

Definition counted (this : BaseScraper) (now : Z) : BaseScraper :=
  {| browser := browser this; context := context this; page := page this;
     config := config this; sessionId := sessionId this;
     requestCount := requestCount this + 1;
     sessionStartTime := sessionStartTime this;
     lastRequestTime := now |}.

Section Navigate.

Variable URL_hostname : string -> option string.

(** The [try] block up to the ban check: the updated scraper and the
    signals, or what was thrown. *)
Definition attempt (this : BaseScraper) (url : string) (v : Visit)
  : Completion (BaseScraper * BanSignals) :=
  match goto v with
  | Throw e => Throw e
  | Normal _ =>
    (* Apply human behavior if enabled *)
    let behaved :=
      if hb_enabled (humanBehavior (config this)) then
        HumanBehavior.completion_of
          (HumanBehavior.applyHumanBehavior (random v) (loaded v)
             (optionsOf (humanBehavior (config this))) O)
      else Normal tt in
    match behaved with
    | Throw e => Throw e
    | Normal _ =>
      match detectBanSignals URL_hostname (loaded v) (detectTime v)
                             (startTime v) url with
      | Throw e => Throw e
      | Normal banSignals =>
        let banSignals :=
          set_httpError (getHttpError (responses v)) banSignals in
        Normal (counted this (endTime v), banSignals)
      end
    end
  end.

(** [navigate(url)]: the completion of the call and the scraper after
    it.  The log records written on the way are not part of the
    model. *)
Definition navigate (this : BaseScraper) (url : string) (v : Visit)
  : Completion ScrapeResult * BaseScraper :=
  if negb (page this) then (Throw (Error "Page not initialized"), this)
  else
    match attempt this url v with
    | Normal (this', banSignals) =>
      if isBanned banSignals then
        (Normal {| success := false;
                   banSignals := banSignals;
                   error :=
                     Some ("BAN detected: " ++
                           match getBanReason banSignals with
                           | Some reason => reason
                           | None => "null"
                           end) |},
         this')
      else
        (Normal {| success := true; banSignals := banSignals;
                   error := None |},
         this')
    | Throw e =>
      let banSignals :=
        {| captchaDetected := false; httpError := None;
           unexpectedRedirect := false; contentMissing := true;
           jsChallenge := false;
           responseTimeMs := catchTime v - startTime v;
           blockedUrl := None |} in
      (Normal {| success := false; banSignals := banSignals;
                 error := Some (message_of e) |},
       this)
    end.

End Navigate.

End Scraper.

(** ** The vocabulary of the specification and the inputs of the examples *)

Module Spec.
Import JS BanDetector.

(** The four ban-indicating channels, in the order of priority in which
    the reason is reported. *)
Inductive Channel : Type := CAPTCHA | HTTP_ERROR | JS_CHALLENGE | REDIRECT.

Definition priority : list Channel :=
  [CAPTCHA; HTTP_ERROR; JS_CHALLENGE; REDIRECT].

Definition triggered (signals : BanSignals) (c : Channel) : bool :=
  match c with
  | CAPTCHA => captchaDetected signals
  | HTTP_ERROR => match httpError signals with Some _ => true | None => false end
  | JS_CHALLENGE => jsChallenge signals
  | REDIRECT => unexpectedRedirect signals
  end.

(** The first triggered channel in priority order. *)
Definition winner (signals : BanSignals) : option Channel :=
  List.find (triggered signals) priority.

(** The text reported for a channel. *)
Definition reasonOf (signals : BanSignals) (c : Channel) : string :=
  match c with
  | CAPTCHA => "CAPTCHA"
  | HTTP_ERROR =>
    "HTTP " ++ match httpError signals with
               | Some code => toString code
               | None => "null"
               end
  | JS_CHALLENGE => "JS Challenge"
  | REDIRECT =>
    "Redirect to " ++ match blockedUrl signals with
                      | Some u => u
                      | None => "null"
                      end
  end.

(** No channel triggered, content flag [missing]. *)
Definition quiet (missing : bool) (ms : Z) : BanSignals :=
  {| captchaDetected := false; httpError := None;
     unexpectedRedirect := false; contentMissing := missing;
     jsChallenge := false; responseTimeMs := ms; blockedUrl := None |}.

(** The evidence [{ httpError: 403, all else false }]. *)
Definition only403 : BanSignals := set_httpError (Some 403) (quiet false 0).

Definition set_contentMissing (b : bool) (s : BanSignals) : BanSignals :=
  {| captchaDetected := captchaDetected s; httpError := httpError s;
     unexpectedRedirect := unexpectedRedirect s;
     contentMissing := b; jsChallenge := jsChallenge s;
     responseTimeMs := responseTimeMs s; blockedUrl := blockedUrl s |}.

(** A page with no element, no text, at the address [u]. *)
Definition blankPage (u : string) : Page :=
  {| query := fun _ => None; queryAll := fun _ => [];
     content := ""; url := u; viewportSize := None |}.

(** The mismatch test of the redirect channel on two host names. *)
Definition domainMismatch (expectedDomain currentDomain : string) : bool :=
  negb (String.eqb expectedDomain currentDomain)
  && negb (includes currentDomain expectedDomain).








(** The random source that always returns [c]. *)
Definition constant (c : R) : nat -> R := fun _ => c.

(** The number of forward scrolls of [humanScroll] for the draw [r], and
    the number of reverse scrolls (0 or 1) for the draw [r]. *)
Definition scrollCountOf (r : R) : nat :=
  Z.to_nat (Math_floor (r * 3) + 2).

Definition scrollBackOf (r : R) : nat :=
  if Rlt_dec 0.7 r then 1%nat else 0%nat.

(** [m], started after [n] draws, completes normally after [n'] draws
    having performed the given numbers of pointer moves, wheel actions and
    forward wheel actions. *)
Definition performs (m : HumanBehavior.M unit) (n n' : nat)
    (moves wheels forward : nat) : Prop :=
  exists t,
    m n = (Normal tt, n', t)
    /\ HumanBehavior.count HumanBehavior.is_move t = moves
    /\ HumanBehavior.count HumanBehavior.is_wheel t = wheels
    /\ HumanBehavior.count HumanBehavior.is_forward_wheel t = forward.

(** The page of [blankPage] in the viewport that [createContext] sets. *)
Definition desktopPage (u : string) : Page :=
  {| query := fun _ => None; queryAll := fun _ => [];
     content := ""; url := u;
     viewportSize := Some {| vp_width := 1920; vp_height := 1080 |} |}.

Definition optionsWith (p : string) : HumanBehavior.HumanBehaviorOptions :=
  {| HumanBehavior.pattern := p;
     HumanBehavior.minDelay := 1000;
     HumanBehavior.maxDelay := 5000 |}.

(** The configuration that [loadConfig] builds from an environment that
    sets nothing but the pattern. *)
Definition configWith (p : string) : Config.ScraperConfig :=
  {| Config.headless := true;
     Config.stealthEnabled := true;
     Config.proxy := None;
     Config.fingerprint := Config.defaultJapanFingerprint;
     Config.humanBehavior :=
       {| Config.hb_enabled := true; Config.hb_pattern := p;
          Config.hb_minDelay := 1000; Config.hb_maxDelay := 5000 |};
     Config.logging :=
       {| Config.log_enabled := true; Config.log_level := "info";
          Config.log_outputDir := "./logs" |} |}.

(** A scraper after [initialize()], with [count] requests so far, the last
    one at [last]. *)
Definition session (p : string) (count last : Z) : Scraper.BaseScraper :=
  {| Scraper.browser := true; Scraper.context := true; Scraper.page := true;
     Scraper.config := configWith p;
     Scraper.sessionId := "sess-1";
     Scraper.requestCount := count;
     Scraper.sessionStartTime := 0;
     Scraper.lastRequestTime := last |}.

(** A visit of the item page that takes 500 ms, with the given completion
    of [page.goto] and the given response statuses. *)
Definition itemUrl : string := "https://jp.mercari.com/item/m1".

Definition visit (gone : Completion unit) (statuses : list Z)
  : Scraper.Visit :=
  {| Scraper.startTime := 10000;
     Scraper.goto := gone;
     Scraper.random := constant 0;
     Scraper.loaded := desktopPage itemUrl;
     Scraper.responses := statuses;
     Scraper.detectTime := 10400;
     Scraper.endTime := 10500;
     Scraper.catchTime := 10500 |}.

End Spec.

(** ** ban-detector.ts: the content check *)

Module ContentPresence.
Import JS.

Section CheckContentPresence.

(** [s.trim()], the platform's. *)
Variable trim : string -> string.

(** [text && text.trim().length > 0] *)
Definition hasText (text : option string) : bool :=
  match text with
  | Some text =>
    negb (String.eqb text "") && (0 <? String.length (trim text))%nat
  | None => false
  end.

Fixpoint checkContentPresence (page : Page) (selectors : list string)
  : bool :=
  match selectors with
  | [] => false
  | selector :: rest =>
    match query page selector with
    | Some element =>
      if hasText (textContent element) then true
      else checkContentPresence page rest
    | None => checkContentPresence page rest
    end
  end.

End CheckContentPresence.

End ContentPresence.

(** ** human-behavior.ts: hovering *)

Module HumanHover.
Import JS HumanBehavior.
Local Open Scope R_scope.

Definition humanHover (random : nat -> R) (page : Page) (selector : string)
  : M unit :=
  match query page selector with
  | None => ret tt
  | Some element =>
    match boundingBox element with
    | None => ret tt
    | Some box =>
      (* Move to element with some randomness within the element *)
      r <- Math_random random ;;
      let targetX := box_x box + box_width box * (0.3 + r * 0.4) in
      r <- Math_random random ;;
      let targetY := box_y box + box_height box * (0.3 + r * 0.4) in
      humanMouseMove random page targetX targetY ;;
      randomDelay random 100 300
    end
  end.

End HumanHover.

(** ** scraper.ts: text extraction and closing *)

Module ScraperLifecycle.
Import JS Config Scraper.

(** [extractText(selector)] on the loaded page [p]. *)
Definition extractText (this : BaseScraper) (p : Page) (selector : string)
  : option string :=
  if negb (page this) then None
  else match query p selector with
       | None => None
       | Some element => textContent element
       end.

(** [close()]: each handle that is set is closed and cleared. *)
Definition close (this : BaseScraper) : BaseScraper :=
  let this :=
    if page this then
      {| browser := browser this; context := context this; page := false;
         config := config this; sessionId := sessionId this;
         requestCount := requestCount this;
         sessionStartTime := sessionStartTime this;
         lastRequestTime := lastRequestTime this |}
    else this in
  let this :=
    if context this then
      {| browser := browser this; context := false; page := page this;
         config := config this; sessionId := sessionId this;
         requestCount := requestCount this;
         sessionStartTime := sessionStartTime this;
         lastRequestTime := lastRequestTime this |}
    else this in
  if browser this then
    {| browser := false; context := context this; page := page this;
       config := config this; sessionId := sessionId this;
       requestCount := requestCount this;
       sessionStartTime := sessionStartTime this;
       lastRequestTime := lastRequestTime this |}
  else this.

End ScraperLifecycle.

(** ** mercari-scraper.ts *)

Module Mercari.
Import JS BanDetector Config Scraper ScraperLifecycle.

Record MercariProduct := {
  product_url : string;
  title : option string;
  price : option Integral;
  isSoldOut : bool;
  statusText : string;
  seller : option string;
  description : option string
}.

(** A [ScrapeResult<MercariProduct>]. *)
Record ProductResult := {
  scraped : bool;                       (* success *)
  data : option MercariProduct;
  signals : BanSignals;                 (* banSignals *)
  failure : option string               (* error *)
}.

(** [value] between double quotes. *)
Definition quoted (value : string) : string :=
  String dquote (value ++ String dquote "").

Definition SELECTORS_title : list string :=
  [ "[data-testid=" ++ quoted "item-name" ++ "]";
    "h1[class*=" ++ quoted "ItemName" ++ "]";
    ".item-name";
    "h1" ].

Definition SELECTORS_price : list string :=
  [ "[data-testid=" ++ quoted "price" ++ "]";
    "[class*=" ++ quoted "ItemPrice" ++ "]";
    ".item-price";
    "[data-testid=" ++ quoted "item-price" ++ "]" ].

Definition SELECTORS_soldOutButton : list string :=
  [ "button[data-testid=" ++ quoted "disabled-purchase-button" ++ "]";
    "button[disabled][data-testid=" ++ quoted "purchase-button" ++ "]" ].

Definition SELECTORS_purchaseButton : list string :=
  [ "button[data-testid=" ++ quoted "purchase-button" ++ "]";
    "button[data-testid=" ++ quoted "buy-button" ++ "]";
    ".purchase-button";
    ".buy-button" ].

Definition SELECTORS_soldOutBadge : list string :=
  [ ".mer-item-thumbnail__soldout-badge";
    ".soldout-badge";
    ".sold-badge";
    "[data-testid=" ++ quoted "soldout-badge" ++ "]" ].

Definition SELECTORS_soldOutText : list string :=
  [ "売り切れました"; "売り切れ"; "SOLD"; "sold out" ].

Definition SELECTORS_seller : list string :=
  [ "[data-testid=" ++ quoted "seller-name" ++ "]"; ".seller-name" ].

Definition SELECTORS_description : list string :=
  [ "[data-testid=" ++ quoted "item-description" ++ "]";
    ".item-description" ].

(** A string is truthy when it is not empty. *)
Definition truthy (s : string) : bool := negb (String.eqb s "").

(** [text.replace(/[^\d]/g, '')]: the decimal digits of [text], in order. *)
Fixpoint digitsOnly (text : string) : string :=
  match text with
  | EmptyString => EmptyString
  | String c rest =>
    if WHATWG.is_digit c then String c (digitsOnly rest) else digitsOnly rest
  end.

(** [parseInt(digits, 10)] on a string of decimal digits that is not
    empty, the only strings it is called on: the [number] for the integer
    that the digits denote. *)
Definition parseDigits (digits : string) : Integral :=
  match NilEmpty.uint_of_string digits with
  | Some d => toNumber (Z.of_uint d)
  | None => Whole 0
  end.

Section Extraction.

Variable trim : string -> string.

(** [element.evaluate(el => el.disabled)] *)
Variable disabled : ElementHandle -> bool.

(** The loop of [extractTitleFromSelectors] and [extractFromSelectors]. *)
Fixpoint extractFromSelectors (this : BaseScraper) (p : Page)
    (selectors : list string) : option string :=
  match selectors with
  | [] => None
  | selector :: rest =>
    let text := extractText this p selector in
    if ContentPresence.hasText trim text then
      match text with
      | Some text => Some (trim text)
      | None => None
      end
    else extractFromSelectors this p rest
  end.

Definition extractTitleFromSelectors (this : BaseScraper) (p : Page)
  : option string :=
  extractFromSelectors this p SELECTORS_title.

(** The loop of [extractPriceFromSelectors]. *)
Fixpoint priceFromSelectors (this : BaseScraper) (p : Page)
    (selectors : list string) : option Integral :=
  match selectors with
  | [] => None
  | selector :: rest =>
    match extractText this p selector with
    | Some text =>
      if truthy text then
        (* Extract numbers from price text *)
        let priceMatch := digitsOnly text in
        if truthy priceMatch then Some (parseDigits priceMatch)
        else priceFromSelectors this p rest
      else priceFromSelectors this p rest
    | None => priceFromSelectors this p rest
    end
  end.

Definition extractPriceFromSelectors (this : BaseScraper) (p : Page)
  : option Integral :=
  priceFromSelectors this p SELECTORS_price.

Definition checkSoldOutStatus (this : BaseScraper) (p : Page) : bool :=
  if negb (page this) then false
  (* Priority 1: Check for disabled purchase button *)
  else if existsb (fun selector => found (query p selector))
                  SELECTORS_soldOutButton then true
  (* Priority 2: Check if purchase button is disabled *)
  else if existsb (fun selector =>
                     match query p selector with
                     | Some element => disabled element
                     | None => false
                     end)
                  SELECTORS_purchaseButton then true
  (* Priority 3: Check for sold out badge *)
  else if existsb (fun selector => found (query p selector))
                  SELECTORS_soldOutBadge then true
  (* Priority 4: Check for sold out text in page *)
  else existsb (fun text => includes (content p) text) SELECTORS_soldOutText.

(** [s || undefined] *)
Definition orUndefined (s : option string) : option string :=
  match s with
  | Some s => if truthy s then Some s else None
  | None => None
  end.

Definition extractProductInfo (this : BaseScraper) (p : Page) (url : string)
  : MercariProduct :=
  let title := extractTitleFromSelectors this p in
  let price := extractPriceFromSelectors this p in
  let isSoldOut := checkSoldOutStatus this p in
  let seller := extractFromSelectors this p SELECTORS_seller in
  let description := extractFromSelectors this p SELECTORS_description in
  {| product_url := url;
     title := title;
     price := price;
     isSoldOut := isSoldOut;
     statusText := if isSoldOut then "売り切れ" else "販売中";
     seller := orUndefined seller;
     description := orUndefined description |}.

Definition withContentMissing (b : bool) (s : BanSignals) : BanSignals :=
  {| captchaDetected := captchaDetected s; httpError := httpError s;
     unexpectedRedirect := unexpectedRedirect s;
     contentMissing := b; jsChallenge := jsChallenge s;
     responseTimeMs := responseTimeMs s; blockedUrl := blockedUrl s |}.

Variable URL_hostname : string -> option string.

(** [scrape(url)]: the page that [navigate] loaded is the page the product
    is read from.  An exception of [navigate] is not caught. *)
Definition scrape (this : BaseScraper) (url : string) (v : Visit)
  : Completion ProductResult * BaseScraper :=
  match navigate URL_hostname this url v with
  | (Throw e, this) => (Throw e, this)
  | (Normal navResult, this) =>
    if negb (success navResult) then
      (Normal {| scraped := false; data := None;
                 signals := banSignals navResult;
                 failure := error navResult |},
       this)
    else
      let product := extractProductInfo this (loaded v) url in
      (* Check if content was actually extracted *)
      let contentPresent :=
        ContentPresence.checkContentPresence trim (loaded v)
                                             SELECTORS_title in
      let banSignals :=
        withContentMissing (negb contentPresent) (banSignals navResult) in
      if negb contentPresent then
        (Normal {| scraped := false; data := Some product;
                   signals := banSignals;
                   failure :=
                     Some "Content extraction failed - page may be blocked" |},
         this)
      else
        (Normal {| scraped := true; data := Some product;
                   signals := banSignals; failure := None |},
         this)
  end.

(** What [batchScrape] does besides returning its results. *)
Inductive BatchEvent : Type :=
| Scraped (url : string)
| Slept (ms : R).

(** The loop of [batchScrape] from index [i] on: [worlds i] is what the
    [i]-th visit meets. *)
Fixpoint batchLoop (this : BaseScraper) (urls : list string) (i : nat)
    (worlds : nat -> Visit) (intervalMs : R)
    (results : gmap string ProductResult)
  : Completion (gmap string ProductResult) * BaseScraper * list BatchEvent :=
  match urls with
  | [] => (Normal results, this, [])
  | url :: rest =>
    match scrape this url (worlds i) with
    | (Throw e, this) => (Throw e, this, [Scraped url])
    | (Normal result, this) =>
      let results := <[url := result]> results in
      (* Check if we got banned *)
      if negb (scraped result) && captchaDetected (signals result) then
        (Normal results, this, [Scraped url])
      else
        (* Wait before next request (except for last one) *)
        match rest with
        | [] => (Normal results, this, [Scraped url])
        | _ :: _ =>
          match batchLoop this rest (S i) worlds intervalMs results with
          | (r, this, events) =>
            (r, this, Scraped url :: Slept intervalMs :: events)
          end
        end
    end
  end.

(** [batchScrape(urls, intervalMs)]: [finally] closes the scraper. *)
Definition batchScrape (moduleConfig : ScraperConfig)
    (newSessionId : string) (now : Z)
    (urls : list string) (intervalMs : R) (worlds : nat -> Visit)
  : Completion (gmap string ProductResult) * BaseScraper * list BatchEvent :=
  match initialize (constructor moduleConfig None newSessionId now) with
  | Throw e =>
    (Throw e, constructor moduleConfig None newSessionId now, [])
  | Normal scraper =>
    match batchLoop scraper urls 0 worlds intervalMs ∅ with
    | (r, scraper, events) => (r, close scraper, events)
    end
  end.

End Extraction.

End Mercari.

(** ** index.ts: the command line *)

Module Cli.
Import JS BanDetector Config Scraper ScraperLifecycle Mercari.

(** The local variables of [main] and the module-level [config] that the
    argument loop updates. *)
Record Parsed := {
  urls : list string;
  interval : R;
  testRateLimit : bool;
  settings : ScraperConfig
}.

Definition set_pattern (p : string) (c : ScraperConfig) : ScraperConfig :=
  {| headless := headless c; stealthEnabled := stealthEnabled c;
     proxy := proxy c; fingerprint := fingerprint c;
     humanBehavior :=
       {| hb_enabled := hb_enabled (humanBehavior c); hb_pattern := p;
          hb_minDelay := hb_minDelay (humanBehavior c);
          hb_maxDelay := hb_maxDelay (humanBehavior c) |};
     logging := logging c |}.

Definition set_headless (b : bool) (c : ScraperConfig) : ScraperConfig :=
  {| headless := b; stealthEnabled := stealthEnabled c;
     proxy := proxy c; fingerprint := fingerprint c;
     humanBehavior := humanBehavior c; logging := logging c |}.

Definition set_stealthEnabled (b : bool) (c : ScraperConfig)
  : ScraperConfig :=
  {| headless := headless c; stealthEnabled := b;
     proxy := proxy c; fingerprint := fingerprint c;
     humanBehavior := humanBehavior c; logging := logging c |}.

Definition with_settings (f : ScraperConfig -> ScraperConfig) (st : Parsed)
  : Parsed :=
  {| urls := urls st; interval := interval st;
     testRateLimit := testRateLimit st; settings := f (settings st) |}.

(** The branches of the argument loop that read one argument. *)
Definition flagOrUrl (arg : string) (st : Parsed) : Parsed :=
  if String.eqb arg "--no-stealth" then
    with_settings (set_stealthEnabled false) st
  else if String.eqb arg "--test-rate-limit" then
    {| urls := urls st; interval := interval st;
       testRateLimit := true; settings := settings st |}
  else if String.prefix "http" arg then
    {| urls := (urls st ++ [arg])%list; interval := interval st;
       testRateLimit := testRateLimit st; settings := settings st |}
  else st.

Section Main.

Variable parseInt10 : string -> R.

(** The argument loop: an option that takes a value reads the next
    argument, when there is one and it is not empty, and steps over it. *)
Fixpoint parseArgs (args : list string) (st : Parsed) : Parsed :=
  match args with
  | [] => st
  | arg :: rest =>
    match rest with
    | next :: rest' =>
      if truthy next then
        if String.eqb arg "--interval" then
          parseArgs rest'
            {| urls := urls st; interval := parseInt10 next;
               testRateLimit := testRateLimit st; settings := settings st |}
        else if String.eqb arg "--pattern" then
          parseArgs rest' (with_settings (set_pattern next) st)
        else if String.eqb arg "--headless" then
          parseArgs rest'
            (with_settings (set_headless (String.eqb next "true")) st)
        else parseArgs rest (flagOrUrl arg st)
      else parseArgs rest (flagOrUrl arg st)
    | [] => parseArgs rest (flagOrUrl arg st)
    end
  end.

(** What [main] goes on to do. *)
Inductive Command : Type :=
| Usage                                   (* the help text *)
| NoUrls                                  (* process.exit(1) *)
| RunRateLimitTest (url : string)
| ScrapeSingleUrl (url : string)
| ScrapeMultipleUrls (urls : list string) (interval : R).

Definition main (args : list string) (moduleConfig : ScraperConfig)
  : Command * ScraperConfig :=
  match args with
  | [] => (Usage, moduleConfig)
  | _ :: _ =>
    let st := parseArgs args
                {| urls := []; interval := 5000; testRateLimit := false;
                   settings := moduleConfig |} in
    match urls st with
    | [] => (NoUrls, settings st)
    | url :: others =>
      if testRateLimit st then (RunRateLimitTest url, settings st)
      else match others with
           | [] => (ScrapeSingleUrl url, settings st)
           | _ :: _ => (ScrapeMultipleUrls (urls st) (interval st), settings st)
           end
    end
  end.

End Main.

(** The counters of [scrapeMultipleUrls] over the results of a batch:
    successes and failures. *)
Definition countResults (results : gmap string ProductResult) : nat * nat :=
  map_fold (fun _ result counts =>
              if scraped result && bool_decide (is_Some (data result))
              then (S (fst counts), snd counts)
              else (fst counts, S (snd counts)))
           (0%nat, 0%nat) results.




Section RateLimitTest.

Variable trim : string -> string.
Variable disabled : ElementHandle -> bool.
Variable URL_hostname : string -> option string.




End RateLimitTest.

End Cli.

(** ** Further vocabulary *)

Module Expected.
Import JS BanDetector HumanBehavior Config Scraper.

(** What [humanScroll] may do: wheel the page down by 100 to 400, or up by
    50 to 150, and wait between 200 and 800 ms. *)
Definition scrollAction (a : Action) : Prop :=
  match a with
  | WaitForTimeout ms => (200 <= ms <= 800)%R
  | MouseWheel dx dy =>
    dx = 0%R /\ ((100 <= dy < 400)%R \/ (-150 < dy <= -50)%R)
  | MouseMove _ _ => False
  end.

(** What [humanMouseMove] may do: move, and wait between 10 and 40 ms. *)
Definition moveAction (a : Action) : Prop :=
  match a with
  | WaitForTimeout ms => (10 <= ms < 40)%R
  | MouseMove _ _ => True
  | MouseWheel _ _ => False
  end.

(** The pointer positions of a trace, in order. *)
Definition positions (t : list Action) : list (R * R) :=
  flat_map (fun a => match a with MouseMove x y => [(x, y)] | _ => [] end) t.

Definition positionOf (p : Point) : R * R := (IZR (x p), IZR (y p)).

(** The pointer moved to each point in turn, with a pause after each
    move. *)
Fixpoint movesAndPauses (points : list Point) (pauses : list R)
  : list Action :=
  match points, pauses with
  | point :: points, ms :: pauses =>
    MouseMove (IZR (x point)) (IZR (y point)) :: WaitForTimeout ms
      :: movesAndPauses points pauses
  | _, _ => []
  end.

(** [m], started after [n] draws, completes normally with a trace of
    actions that all satisfy [P]. *)
Definition keeps (P : Action -> Prop) (m : M unit) (n : nat) : Prop :=
  exists n' t, m n = (Normal tt, n', t) /\ Forall P t.

(** Successive calls of [navigate], each on its URL with what it meets:
    the results in order, and the scraper after the last call. *)
Fixpoint navigateAll (URL_hostname : string -> option string)
    (this : BaseScraper) (visits : list (string * Visit))
  : list (Completion ScrapeResult) * BaseScraper :=
  match visits with
  | [] => ([], this)
  | (url, v) :: rest =>
    match navigate URL_hostname this url v with
    | (r, this) =>
      match navigateAll URL_hostname this rest with
      | (rs, this) => (r :: rs, this)
      end
    end
  end.

(** A result that [navigate] produced at the end of its [try] block: a
    success or a ban. *)
Definition completed (r : Completion ScrapeResult) : bool :=
  match r with
  | Normal result => success result || isBanned (banSignals result)
  | Throw _ => false
  end.

(** The visits and pauses of a batch that runs to the end of [urls]. *)
Fixpoint schedule (urls : list string) (intervalMs : R)
  : list Mercari.BatchEvent :=
  match urls with
  | [] => []
  | [url] => [Mercari.Scraped url]
  | url :: rest =>
    Mercari.Scraped url :: Mercari.Slept intervalMs :: schedule rest intervalMs
  end.

(** A failure that stops a batch. *)
Definition captchaFailure (r : Mercari.ProductResult) : bool :=
  negb (Mercari.scraped r) && captchaDetected (Mercari.signals r).

(** A page in the desktop viewport with one button. *)
Definition buttonPage : Page :=
  {| query := fun selector =>
       if String.eqb selector "button" then
         Some {| textContent := Some "Buy";
                 boundingBox :=
                   Some {| box_x := 100; box_y := 200;
                           box_width := 80; box_height := 40 |} |}
       else None;
     queryAll := fun _ => [];
     content := "";
     url := "https://jp.mercari.com/item/m1";
     viewportSize := Some {| vp_width := 1920; vp_height := 1080 |} |}.














Section Rounds.

Variable trim : string -> string.
Variable disabled : ElementHandle -> bool.
Variable URL_hostname : string -> option string.



End Rounds.

(** The settings that the command line has no option for. *)
Definition untouched (c c' : ScraperConfig) : Prop :=
  proxy c' = proxy c
  /\ fingerprint c' = fingerprint c
  /\ logging c' = logging c
  /\ hb_enabled (humanBehavior c') = hb_enabled (humanBehavior c)
  /\ hb_minDelay (humanBehavior c') = hb_minDelay (humanBehavior c)
  /\ hb_maxDelay (humanBehavior c') = hb_maxDelay (humanBehavior c).

(** An option of the command line that reads a value. *)
Definition takesValue (arg : string) : bool :=
  String.eqb arg "--interval" || String.eqb arg "--pattern"
  || String.eqb arg "--headless".

Definition startsWithHttp (arg : string) : bool := String.prefix "http" arg.

(** A page in the desktop viewport whose heading is the item's name. *)
Definition itemPage : Page :=
  {| query := fun selector =>
       if String.eqb selector "h1" then
         Some {| textContent := Some "Camera"; boundingBox := None |}
       else None;
     queryAll := fun _ => [];
     content := "";
     url := "https://jp.mercari.com/item/m1";
     viewportSize := Some {| vp_width := 1920; vp_height := 1080 |} |}.

(** A visit that loads [itemPage] in 500 ms. *)
Definition itemVisit : Visit :=
  {| startTime := 10000;
     goto := Normal tt;
     random := fun _ => 0%R;
     loaded := itemPage;
     responses := [200];
     detectTime := 10400;
     endTime := 10500;
     catchTime := 10500 |}.

(** No trimming, no disabled button: the simplest platform. *)
Definition noTrim (s : string) : string := s.
Definition neverDisabled (e : ElementHandle) : bool := false.

End Expected.

(** * Properties *)

Section BanDetectorProperties.
Import JS BanDetector Spec.

Lemma getHttpError_snoc (responses : list Z) (status : Z) :
  getHttpError (responses ++ [status])
  = onResponse (getHttpError responses) status.
Proof.
  unfold getHttpError. now rewrite fold_left_app.
Qed.

Lemma getHttpError_quiet (responses : list Z) :
  existsb isBlockingStatus responses = false ->
  getHttpError responses = None.
Proof.
  induction responses as [|status responses IH] using rev_ind; [easy|].
  rewrite existsb_app, orb_false_iff; cbn [existsb].
  rewrite orb_false_r. intros [Hl Hs].
  rewrite getHttpError_snoc, IH by assumption.
  unfold onResponse. now rewrite Hs.
Qed.

(** C1. [isBanned] is the disjunction of the four ban-indicating channels
    (CAPTCHA, an HTTP error being set, JS challenge, redirect); the
    [contentMissing] flag has no influence on it, and a record with the
    four channels off is not banned, whatever its content flag. *)
Theorem isBanned_four_channels (signals : BanSignals) :
  (isBanned signals = true <->
     captchaDetected signals = true \/ httpError signals <> None
     \/ jsChallenge signals = true \/ unexpectedRedirect signals = true)
  /\ (forall missing,
        isBanned (set_contentMissing missing signals) = isBanned signals)
  /\ (forall missing ms, isBanned (quiet missing ms) = false).
Proof.
  split; [|split; [reflexivity|reflexivity]].
  unfold isBanned.
  rewrite !orb_true_iff, bool_decide_eq_true. tauto.
Qed.

(** C10. [getBanReason] returns [null] exactly when [isBanned] returns
    false: a banned verdict always has a reason, and a verdict that is
    not banned has none. *)
Theorem getBanReason_null_iff_not_banned (signals : BanSignals) :
  getBanReason signals = None <-> isBanned signals = false.
Proof.
  unfold getBanReason, isBanned.
  destruct (captchaDetected signals), (httpError signals),
    (jsChallenge signals), (unexpectedRedirect signals);
    cbn; split; intro; try reflexivity; discriminate.
Qed.

End BanDetectorProperties.

Section ResponseMonitorProperties.
Import JS BanDetector Spec.

(** C2, as the code has it.  When a blocking status is observed during a
    visit, the response monitor reports the last blocking status in
    chronological order: the one after which no blocking status follows. *)
Theorem getHttpError_last_blocking (responses : list Z)
    (Hseen : existsb isBlockingStatus responses = true) :
  exists before status after,
    responses = (before ++ status :: after)%list
    /\ isBlockingStatus status = true
    /\ existsb isBlockingStatus after = false
    /\ getHttpError responses = Some status.
Proof.
  induction responses as [|last responses IH] using rev_ind;
    [discriminate|].
  destruct (isBlockingStatus last) eqn:Hlast.
  - exists responses, last, []. repeat split; trivial.
    rewrite getHttpError_snoc. unfold onResponse. now rewrite Hlast.
  - rewrite existsb_app in Hseen. cbn [existsb] in Hseen.
    rewrite Hlast, !orb_false_r in Hseen.
    destruct (IH Hseen) as (before & status & after & -> & Hs & Hq & Hg).
    exists before, status, (after ++ [last])%list. repeat split; trivial.
    + now rewrite <- app_assoc.
    + rewrite existsb_app, Hq. cbn [existsb orb]. now rewrite Hlast.
    + rewrite getHttpError_snoc, Hg. unfold onResponse. now rewrite Hlast.
Qed.

Lemma getHttpError_last_blocking_witness :
  exists before status after,
    [403; 200; 429; 200] = (before ++ status :: after)%list
    /\ isBlockingStatus status = true
    /\ existsb isBlockingStatus after = false
    /\ getHttpError [403; 200; 429; 200] = Some status.
Proof.
  apply (getHttpError_last_blocking [403; 200; 429; 200]). reflexivity.
Defined.

(** C2, as stated, fails: after the statuses 403 and 429, in this order,
    the first blocking status observed is 403 and the monitor reports
    429. *)
Lemma getHttpError_not_first :
  List.find isBlockingStatus [403; 429] = Some 403
  /\ getHttpError [403; 429] = Some 429
  /\ getHttpError [403; 429] <> List.find isBlockingStatus [403; 429].
Proof.
  repeat split. discriminate.
Qed.

End ResponseMonitorProperties.

Section BanReasonProperties.
Import JS BanDetector Spec.

(** C6, as the code has it.  For a banned record, [getBanReason] returns
    the text of the first triggered channel in the order CAPTCHA, HTTP
    error, JS challenge, redirect; the text of the HTTP channel is
    ["HTTP "] followed by the status code, so the evidence with
    [httpError = 403] and nothing else is banned with reason
    ["HTTP 403"]. *)
Theorem getBanReason_priority (signals : BanSignals)
    (Hbanned : isBanned signals = true) :
  (exists c, winner signals = Some c
             /\ getBanReason signals = Some (reasonOf signals c))
  /\ isBanned only403 = true
  /\ getBanReason only403 = Some "HTTP 403".
Proof.
  split; [|split; reflexivity].
  revert Hbanned. unfold isBanned, getBanReason, winner, reasonOf.
  cbn [priority List.find triggered].
  destruct (captchaDetected signals); [intros _; now exists CAPTCHA|].
  destruct (httpError signals) as [code|]; [intros _; now exists HTTP_ERROR|].
  destruct (jsChallenge signals); [intros _; now exists JS_CHALLENGE|].
  destruct (unexpectedRedirect signals); [intros _; now exists REDIRECT|].
  cbn. discriminate.
Qed.

Lemma getBanReason_priority_witness :
  (exists c, winner only403 = Some c
             /\ getBanReason only403 = Some (reasonOf only403 c))
  /\ isBanned only403 = true
  /\ getBanReason only403 = Some "HTTP 403".
Proof.
  apply (getBanReason_priority only403). reflexivity.
Defined.

(** C6, as stated, fails on its example: the reason reported for
    [httpError = 403] alone is not ["HTTP error"]. *)
Lemma getBanReason_403_not_HTTP_error :
  isBanned only403 = true
  /\ getBanReason only403 <> Some "HTTP error".
Proof.
  split; [reflexivity|discriminate].
Qed.

End BanReasonProperties.

Section DetectBanSignalsProperties.
Import JS BanDetector Spec.

Variable URL_hostname : string -> option string.

Lemma detectBanSignals_normal
    (page : Page) (now startTime : Z) (expectedUrl : string)
    (expectedDomain currentDomain : string) :
  URL_hostname expectedUrl = Some expectedDomain ->
  URL_hostname (url page) = Some currentDomain ->
  exists signals,
    detectBanSignals URL_hostname page now startTime expectedUrl
    = Normal signals
    /\ captchaDetected signals
       = existsb (fun selector => found (query page selector))
                 CAPTCHA_SELECTORS
    /\ jsChallenge signals
       = existsb (includes (content page)) JS_CHALLENGE_INDICATORS
    /\ unexpectedRedirect signals
       = (existsb (includes (url page)) BLOCK_PAGE_PATTERNS
          || domainMismatch expectedDomain currentDomain)
    /\ blockedUrl signals
       = (if unexpectedRedirect signals then Some (url page) else None)
    /\ httpError signals = None
    /\ contentMissing signals = false
    /\ responseTimeMs signals = now - startTime.
Proof.
  intros He Hc.
  unfold detectBanSignals. rewrite He, Hc. eexists; split; [reflexivity|].
  unfold domainMismatch.
  destruct (existsb _ CAPTCHA_SELECTORS),
    (existsb _ JS_CHALLENGE_INDICATORS),
    (existsb _ BLOCK_PAGE_PATTERNS),
    (negb (String.eqb expectedDomain currentDomain)
     && negb (includes currentDomain expectedDomain));
    cbn; repeat split; reflexivity.
Qed.

Lemma detectBanSignals_throw
    (page : Page) (now startTime : Z) (expectedUrl : string) :
  URL_hostname expectedUrl = None \/ URL_hostname (url page) = None ->
  detectBanSignals URL_hostname page now startTime expectedUrl
  = Throw (TypeError "Invalid URL").
Proof.
  unfold detectBanSignals. intros [-> | Hc]; [reflexivity|].
  rewrite Hc. now destruct (URL_hostname expectedUrl).
Qed.

(** C3, as the code has it.  When the expected URL and the current URL
    both parse, [detectBanSignals] returns a record with every field
    set: a channel whose selectors, phrases or patterns find nothing is
    off.  When one of the two fails to parse, the call throws the
    [TypeError] of the URL constructor and returns no record. *)
Theorem detectBanSignals_completion
    (page : Page) (now startTime : Z) (expectedUrl : string) :
  (forall expectedDomain currentDomain,
      URL_hostname expectedUrl = Some expectedDomain ->
      URL_hostname (url page) = Some currentDomain ->
      exists signals,
        detectBanSignals URL_hostname page now startTime expectedUrl
        = Normal signals
        /\ captchaDetected signals
           = existsb (fun selector => found (query page selector))
                     CAPTCHA_SELECTORS
        /\ jsChallenge signals
           = existsb (includes (content page)) JS_CHALLENGE_INDICATORS
        /\ unexpectedRedirect signals
           = (existsb (includes (url page)) BLOCK_PAGE_PATTERNS
              || domainMismatch expectedDomain currentDomain)
        /\ blockedUrl signals
           = (if unexpectedRedirect signals then Some (url page) else None)
        /\ httpError signals = None
        /\ contentMissing signals = false
        /\ responseTimeMs signals = now - startTime)
  /\ (URL_hostname expectedUrl = None \/ URL_hostname (url page) = None ->
      detectBanSignals URL_hostname page now startTime expectedUrl
      = Throw (TypeError "Invalid URL")).
Proof.
  split.
  - intros expectedDomain currentDomain. apply detectBanSignals_normal.
  - apply detectBanSignals_throw.
Qed.

End DetectBanSignalsProperties.

Section DetectBanSignalsExamples.
Import JS BanDetector Spec.

Lemma detectBanSignals_completion_witness :
  let page := blankPage "https://jp.mercari.com/error" in
  (exists signals,
      detectBanSignals WHATWG.hostname page 1500 1000
                       "https://jp.mercari.com/item/m1"
      = Normal signals
      /\ unexpectedRedirect signals = true
      /\ blockedUrl signals = Some "https://jp.mercari.com/error"
      /\ responseTimeMs signals = 500)
  /\ detectBanSignals WHATWG.hostname page 1500 1000 "jp.mercari.com/item/m1"
     = Throw (TypeError "Invalid URL").
Proof.
  intro page.
  pose proof (detectBanSignals_completion WHATWG.hostname page 1500 1000
                "https://jp.mercari.com/item/m1") as [Hok _].
  pose proof (detectBanSignals_completion WHATWG.hostname page 1500 1000
                "jp.mercari.com/item/m1") as [_ Hthrow].
  split.
  - destruct (Hok "jp.mercari.com" "jp.mercari.com")
      as (signals & Hs & _ & _ & Hr & Hb & _ & _ & Ht);
      [reflexivity|reflexivity|].
    exists signals. rewrite Hb, Hr. repeat split; assumption.
  - apply Hthrow. left. reflexivity.
Defined.

(** C3, as stated, fails: on an expected URL without a scheme, which the
    URL constructor rejects, [detectBanSignals] throws although the page
    itself is at a well-formed address. *)
Lemma detectBanSignals_throws_on_malformed_url :
  WHATWG.hostname "jp.mercari.com/item/m1" = None
  /\ detectBanSignals WHATWG.hostname
       (blankPage "https://jp.mercari.com/item/m1") 1500 1000
       "jp.mercari.com/item/m1"
     = Throw (TypeError "Invalid URL").
Proof.
  split; reflexivity.
Qed.

End DetectBanSignalsExamples.

Section DelayProperties.
Import JS HumanBehavior Spec.
Local Open Scope R_scope.

Lemma clamp01_bounds (x : R) : 0 <= clamp01 x <= 1.
Proof.
  unfold clamp01, Rmax, Rmin.
  destruct (Rle_dec 1 x); destruct (Rle_dec 0 _); lra.
Qed.

Lemma clamp01_inside (x : R) : 0 <= x <= 1 -> clamp01 x = x.
Proof.
  unfold clamp01, Rmax, Rmin.
  destruct (Rle_dec 1 x); destruct (Rle_dec 0 _); lra.
Qed.


Lemma clamp_bounds (s : Sample) : 0 <= clamp s <= 1.
Proof. destruct s; cbn [clamp]; [apply clamp01_bounds|lra|lra]. Qed.






Lemma delayOf_in_range (min max u1 u2 : R) :
  min <= max -> min <= delayOf min max u1 u2 <= max.
Proof.
  intro Hle. unfold delayOf.
  pose proof (clamp_bounds (normalize (boxMuller u1 u2))) as Hc.
  cbv zeta. nra.
Qed.





Lemma Math_round_between (lo hi : Z) (x : R) :
  IZR lo <= x <= IZR hi -> (lo <= Math_round x <= hi)%Z.
Proof.
  intros [Hlo Hhi]. unfold Math_round. split.
  - apply Zfloor_lub. lra.
  - pose proof (Zfloor_bound (x + / 2)) as [Hf _].
    assert (IZR (Zfloor (x + / 2)) < IZR (hi + 1)) as Hlt
      by (rewrite plus_IZR; lra).
    apply lt_IZR in Hlt. lia.
Qed.










(** [randomDelay] draws twice and waits for the rounded delay. *)
Lemma randomDelay_run (random : nat -> R) (min max : R) (n : nat) :
  randomDelay random min max n
  = (Normal tt, S (S n),
     [WaitForTimeout
        (IZR (Math_round (delayOf min max (random n) (random (S n)))))]).
Proof. reflexivity. Qed.






End DelayProperties.

Section BezierProperties.
Import JS HumanBehavior Spec.
Local Open Scope R_scope.

Lemma Math_round_IZR (z : Z) : Math_round (IZR z) = z.
Proof.
  unfold Math_round. apply Zfloor_eq. lra.
Qed.

Lemma cubicBezier_start (p0 p1 p2 p3 : R) : cubicBezier 0 p0 p1 p2 p3 = p0.
Proof. unfold cubicBezier. ring. Qed.

Lemma cubicBezier_end (p0 p1 p2 p3 : R) : cubicBezier 1 p0 p1 p2 p3 = p3.
Proof. unfold cubicBezier. ring. Qed.

Lemma paramOf_first (steps : Z) : paramOf steps 0 = 0.
Proof. unfold paramOf. cbn. lra. Qed.

Lemma INR_to_nat (steps : Z) : (0 <= steps)%Z -> INR (Z.to_nat steps) = IZR steps.
Proof.
  intro H. now rewrite INR_IZR_INZ, Z2Nat.id.
Qed.

Lemma paramOf_last (steps : Z) :
  (0 < steps)%Z -> paramOf steps (Z.to_nat steps) = 1.
Proof.
  intro H. unfold paramOf. rewrite INR_to_nat by lia.
  assert (0 < IZR steps) by now apply IZR_lt.
  field. lra.
Qed.

Lemma paramOf_increasing (steps : Z) (i j : nat) :
  (0 < steps)%Z -> (i < j)%nat -> paramOf steps i < paramOf steps j.
Proof.
  intros H Hij. unfold paramOf, Rdiv.
  assert (0 < / IZR steps) by (apply Rinv_0_lt_compat; now apply IZR_lt).
  apply Rmult_lt_compat_r; [assumption|]. now apply lt_INR.
Qed.

Lemma paramOf_inside (steps : Z) (i : nat) :
  (0 < steps)%Z -> (0 < i < Z.to_nat steps)%nat -> 0 < paramOf steps i < 1.
Proof.
  intros H [H0 H1]. split.
  - rewrite <- (paramOf_first steps). now apply paramOf_increasing.
  - rewrite <- (paramOf_last steps H). now apply paramOf_increasing.
Qed.

Lemma stepsOf_bounds (r : R) : 0 <= r < 1 -> (10 <= stepsOf r <= 29)%Z.
Proof.
  intros [H0 H1]. unfold stepsOf, Math_floor.
  assert (0 <= Zfloor (r * 20))%Z by (apply Zfloor_lub; lra).
  pose proof (Zfloor_bound (r * 20)) as [Hf _].
  assert (IZR (Zfloor (r * 20)) < IZR 20) as Hlt by lra.
  apply lt_IZR in Hlt. lia.
Qed.

Lemma pointAt_start (sx sy c1x c1y c2x c2y ex ey : R) :
  pointAt sx sy c1x c1y c2x c2y ex ey 0
  = {| x := Math_round sx; y := Math_round sy |}.
Proof. unfold pointAt. now rewrite !cubicBezier_start. Qed.

Lemma pointAt_end (sx sy c1x c1y c2x c2y ex ey : R) :
  pointAt sx sy c1x c1y c2x c2y ex ey 1
  = {| x := Math_round ex; y := Math_round ey |}.
Proof. unfold pointAt. now rewrite !cubicBezier_end. Qed.

(** What [generateBezierPoints] returns: four draws for the control
    points, then the samples at the parameters [0/steps, ..., steps/steps]. *)
Lemma generateBezierPoints_run (random : nat -> R)
    (sx sy ex ey : R) (steps : Z) (n : nat) :
  (0 <= steps)%Z ->
  exists c1x c1y c2x c2y,
    generateBezierPoints random sx sy ex ey steps n
    = (Normal (map (fun i => pointAt sx sy c1x c1y c2x c2y ex ey
                                     (paramOf steps i))
                   (seq 0 (S (Z.to_nat steps)))),
       (n + 4)%nat, []).
Proof.
  intro H. do 4 eexists. unfold generateBezierPoints, bind, Math_random, ret.
  cbn [app]. replace (Z.to_nat (steps + 1)) with (S (Z.to_nat steps)) by lia.
  replace (S (S (S (S n)))) with (n + 4)%nat by lia. reflexivity.
Qed.

Lemma samples_head (f : R -> Point) (steps : Z) :
  head (map (fun i => f (paramOf steps i)) (seq 0 (S (Z.to_nat steps))))
  = Some (f 0).
Proof. cbn. now rewrite paramOf_first. Qed.

Lemma samples_last (f : R -> Point) (steps : Z) :
  (0 < steps)%Z ->
  last (map (fun i => f (paramOf steps i)) (seq 0 (S (Z.to_nat steps))))
  = Some (f 1).
Proof.
  intro H. rewrite seq_S, map_app. cbn [map]. rewrite last_snoc.
  cbn [Nat.add]. now rewrite paramOf_last.
Qed.

(** C8, as the code has it.  For every start point, end point and step
    count [steps >= 1], the sequence has [steps + 1] points, sampled at
    the parameters [i / steps], which increase strictly from 0 to 1 and lie
    strictly between 0 and 1 for the intermediate points.  The first point
    is the start point and the last point is the end point, each with its
    coordinates rounded to the nearest integer: they are the declared
    points exactly when these have integer coordinates.  The step count
    drawn by [humanMouseMove] lies between 10 and 29. *)
Theorem generateBezierPoints_sampling (random : nat -> R)
    (sx sy ex ey : R) (steps : Z) (n : nat) (Hsteps : (0 < steps)%Z) :
  exists c1x c1y c2x c2y points,
    generateBezierPoints random sx sy ex ey steps n
    = (Normal points, (n + 4)%nat, [])
    /\ points = map (fun i => pointAt sx sy c1x c1y c2x c2y ex ey
                                      (paramOf steps i))
                    (seq 0 (S (Z.to_nat steps)))
    /\ length points = S (Z.to_nat steps)
    /\ head points = Some {| x := Math_round sx; y := Math_round sy |}
    /\ last points = Some {| x := Math_round ex; y := Math_round ey |}
    /\ (forall a b : Z, sx = IZR a -> sy = IZR b ->
                        head points = Some {| x := a; y := b |})
    /\ (forall a b : Z, ex = IZR a -> ey = IZR b ->
                        last points = Some {| x := a; y := b |})
    /\ paramOf steps 0 = 0
    /\ paramOf steps (Z.to_nat steps) = 1
    /\ (forall i j, (i < j <= Z.to_nat steps)%nat ->
                    paramOf steps i < paramOf steps j)
    /\ (forall i, (0 < i < Z.to_nat steps)%nat -> 0 < paramOf steps i < 1)
    /\ (forall r, 0 <= r < 1 -> (10 <= stepsOf r <= 29)%Z).
Proof.
  destruct (generateBezierPoints_run random sx sy ex ey steps n)
    as (c1x & c1y & c2x & c2y & Hrun); [lia|].
  exists c1x, c1y, c2x, c2y. eexists. split; [exact Hrun|].
  split; [reflexivity|].
  pose proof (samples_head (pointAt sx sy c1x c1y c2x c2y ex ey) steps)
    as Hhead.
  pose proof (samples_last (pointAt sx sy c1x c1y c2x c2y ex ey) steps Hsteps)
    as Hlast.
  rewrite pointAt_start in Hhead. rewrite pointAt_end in Hlast.
  repeat split.
  - now rewrite length_map, length_seq.
  - exact Hhead.
  - exact Hlast.
  - intros a b -> ->. now rewrite Hhead, !Math_round_IZR.
  - intros a b -> ->. now rewrite Hlast, !Math_round_IZR.
  - apply paramOf_first.
  - now apply paramOf_last.
  - intros i j [Hij _]. now apply paramOf_increasing.
  - now apply paramOf_inside.
  - now apply paramOf_inside.
  - now apply stepsOf_bounds.
  - now apply stepsOf_bounds.
Qed.

Lemma generateBezierPoints_sampling_witness :
  exists points,
    completion_of (generateBezierPoints (constant (/ 2)) 3 4 100 200 10 0%nat)
    = Normal points
    /\ length points = 11%nat
    /\ head points = Some {| x := 3; y := 4 |}
    /\ last points = Some {| x := 100; y := 200 |}.
Proof.
  destruct (generateBezierPoints_sampling (constant (/ 2)) 3 4 100 200 10 0%nat)
    as (c1x & c1y & c2x & c2y & points & Hrun & _ & Hlen & _ & _ & Hh & Hl & _);
    [lia|].
  exists points. rewrite Hrun. repeat split.
  - exact Hlen.
  - now apply Hh.
  - now apply Hl.
Defined.

(** C8, as stated, fails: from the start point (0.5, 0) the first point
    of the sequence is (1, 0), not the start point. *)
Lemma generateBezierPoints_start_rounded :
  exists points,
    completion_of (generateBezierPoints (constant (/ 2)) (/ 2) 0 10 10 10 0%nat)
    = Normal points
    /\ head points = Some {| x := 1; y := 0 |}
    /\ IZR 1 <> / 2.
Proof.
  destruct (generateBezierPoints_run (constant (/ 2)) (/ 2) 0 10 10 10 0%nat)
    as (c1x & c1y & c2x & c2y & Hrun); [lia|].
  eexists. rewrite Hrun. split; [reflexivity|]. split; [|lra].
  rewrite (samples_head (pointAt (/ 2) 0 c1x c1y c2x c2y 10 10) 10).
  rewrite pointAt_start. f_equal.
  assert (Math_round (/ 2) = 1%Z) as -> by (apply Zfloor_eq; lra).
  now rewrite (Math_round_IZR 0).
Qed.

End BezierProperties.

Section BehaviourRuns.
Import JS HumanBehavior Spec.
Local Open Scope R_scope.

Variable random : nat -> R.
Variable page : Page.
Hypothesis Hrandom : forall k, 0 <= random k < 1.

Lemma count_app (p : Action -> bool) (t1 t2 : list Action) :
  count p (t1 ++ t2) = (count p t1 + count p t2)%nat.
Proof. unfold count. now rewrite List.filter_app, length_app. Qed.

Lemma bind_random {B} (f : R -> M B) (n : nat) :
  bind (Math_random random) f n = f (random n) (S n).
Proof.
  unfold bind, Math_random. now destruct (f (random n) (S n)) as [[r n2] t2].
Qed.

Lemma bind_silent {A B} (m : M A) (f : A -> M B) (n n1 : nat) (a : A) :
  m n = (Normal a, n1, []) -> bind m f n = f a n1.
Proof.
  intro H. unfold bind. rewrite H. now destruct (f a n1) as [[r n2] t2].
Qed.

Lemma bind_performs (m k : M unit) (n n1 n2 a b c a' b' c' : nat) :
  performs m n n1 a b c -> performs k n1 n2 a' b' c' ->
  performs (bind m (fun _ => k)) n n2 (a + a') (b + b') (c + c').
Proof.
  intros (t1 & H1 & <- & <- & <-) (t2 & H2 & <- & <- & <-).
  exists (t1 ++ t2)%list. unfold bind. rewrite H1, H2.
  now rewrite !count_app.
Qed.

Lemma ret_performs (n : nat) : performs (ret tt) n n 0 0 0.
Proof. now exists []. Qed.

Lemma randomDelay_performs (min max : R) (n : nat) :
  performs (randomDelay random min max) n (S (S n)) 0 0 0.
Proof.
  unfold performs, randomDelay. rewrite !bind_random.
  eexists. split; [reflexivity|]. now cbn.
Qed.

Lemma repeat_performs (body : M unit) (d a b c : nat) :
  (forall m, performs body m (m + d) a b c) ->
  forall k n, performs (repeat_ k body) n (n + k * d) (k * a) (k * b) (k * c).
Proof.
  intros Hbody k. induction k as [|k IH]; intro n.
  - cbn [repeat_ Nat.mul]. rewrite Nat.add_0_r. apply ret_performs.
  - cbn [repeat_ Nat.mul].
    replace (n + (d + k * d))%nat with (n + d + k * d)%nat by lia.
    exact (bind_performs _ _ _ _ _ _ _ _ _ _ _ (Hbody n) (IH (n + d)%nat)).
Qed.

Lemma for_of_performs {A} (body : A -> M unit) :
  (forall x m, performs (body x) m (S m) 1 0 0) ->
  forall l n, performs (for_of l body) n (n + length l) (length l) 0 0.
Proof.
  intros Hbody l. induction l as [|x l IH]; intro n.
  - cbn [for_of length]. rewrite Nat.add_0_r. apply ret_performs.
  - cbn [for_of length].
    replace (n + S (length l))%nat with (S n + length l)%nat by lia.
    exact (bind_performs _ _ _ _ _ _ _ _ _ _ _ (Hbody x n) (IH (S n))).
Qed.

Lemma scrollCountOf_bounds (r : R) :
  0 <= r < 1 -> (2 <= scrollCountOf r <= 4)%nat.
Proof.
  intros [H0 H1]. unfold scrollCountOf, Math_floor.
  assert (0 <= Zfloor (r * 3))%Z by (apply Zfloor_lub; lra).
  pose proof (Zfloor_bound (r * 3)) as [Hf _].
  assert (IZR (Zfloor (r * 3)) < IZR 3) as Hlt by lra.
  apply lt_IZR in Hlt. lia.
Qed.

Lemma scrollBackOf_bounds (r : R) : (scrollBackOf r <= 1)%nat.
Proof. unfold scrollBackOf. destruct (Rlt_dec 0.7 r); lia. Qed.

(** One turn of the scroll loop: a draw, a forward wheel action, a delay. *)
Lemma scroll_step_performs (m : nat) :
  performs (bind (Math_random random) (fun r =>
              bind (mouse_wheel 0 (r * 300 + 100)) (fun _ =>
                randomDelay random 300 800)))
           m (m + 3) 0 1 1.
Proof.
  unfold performs. rewrite bind_random.
  destruct (randomDelay_performs 300 800 (S m)) as (t & Ht & Hm & Hw & Hf).
  exists (MouseWheel 0 (random m * 300 + 100) :: t).
  unfold bind, mouse_wheel, perform. rewrite Ht.
  replace (m + 3)%nat with (S (S (S m))) by lia.
  split; [reflexivity|].
  unfold count in *. cbn [List.filter is_move is_wheel is_forward_wheel length].
  destruct (Rlt_dec 0 (random m * 300 + 100)) as [_|Hneg].
  - cbn [length]. now rewrite Hm, Hw, Hf.
  - exfalso. apply Hneg. pose proof (Hrandom m). lra.
Qed.

(** The reverse scroll and what follows it. *)
Lemma scroll_back_performs (n : nat) :
  performs (bind (Math_random random) (fun r =>
              if Rlt_dec 0.7 r then
                bind (Math_random random) (fun r =>
                  bind (mouse_wheel 0 (- (r * 100 + 50))) (fun _ =>
                    randomDelay random 200 500))
              else ret tt))
           n (S n + 3 * scrollBackOf (random n))
           0 (scrollBackOf (random n)) 0.
Proof.
  unfold performs, scrollBackOf. rewrite bind_random.
  destruct (Rlt_dec 0.7 (random n)) as [Hback|Hstay].
  - rewrite bind_random.
    destruct (randomDelay_performs 200 500 (S (S n)))
      as (t & Ht & Hm & Hw & Hf).
    exists (MouseWheel 0 (- (random (S n) * 100 + 50)) :: t).
    unfold bind, mouse_wheel, perform. rewrite Ht.
    replace (S n + 3 * 1)%nat with (S (S (S (S n)))) by lia.
    split; [reflexivity|].
    unfold count in *.
    cbn [List.filter is_move is_wheel is_forward_wheel length].
    destruct (Rlt_dec 0 (- (random (S n) * 100 + 50))) as [Hpos|_].
    + exfalso. pose proof (Hrandom (S n)). lra.
    + cbn [length]. now rewrite Hm, Hw, Hf.
  - replace (S n + 3 * 0)%nat with (S n) by lia. apply ret_performs.
Qed.

Lemma humanScroll_performs (n : nat) :
  exists i n',
    performs (humanScroll random) n n'
             0 (scrollCountOf (random n) + scrollBackOf (random i))
             (scrollCountOf (random n)).
Proof.
  set (k := scrollCountOf (random n)).
  exists (S n + k * 3)%nat, (S (S n + k * 3) + 3 * scrollBackOf (random (S n + k * 3)))%nat.
  unfold performs, humanScroll. rewrite bind_random. fold (scrollCountOf (random n)). fold k.
  pose proof (repeat_performs _ 3 0 1 1 scroll_step_performs k (S n)) as Hloop.
  pose proof (scroll_back_performs (S n + k * 3)) as Hback.
  pose proof (bind_performs _ _ _ _ _ _ _ _ _ _ _ Hloop Hback) as Hall.
  replace (k * 0 + 0)%nat with 0%nat in Hall by lia.
  replace (k * 1)%nat with k in Hall by lia.
  replace (k + 0)%nat with k in Hall by lia.
  exact Hall.
Qed.

Lemma move_step_performs (point : Point) (m : nat) :
  performs (bind (mouse_move (IZR (x point)) (IZR (y point))) (fun _ =>
              bind (Math_random random) (fun r =>
                waitForTimeout (r * 30 + 10))))
           m (S m) 1 0 0.
Proof.
  eexists. split; [reflexivity|]. now cbn.
Qed.

Lemma humanMouseMove_performs (targetX targetY : R) (n : nat) :
  exists n' moves,
    performs (humanMouseMove random page targetX targetY) n n' moves 0 0
    /\ (viewportSize page = None -> moves = 0%nat)
    /\ (viewportSize page <> None -> (11 <= moves <= 30)%nat).
Proof.
  unfold humanMouseMove.
  destruct (viewportSize page) as [size|].
  - pose proof (stepsOf_bounds (random (S (S n))) (Hrandom _)) as Hsteps.
    set (steps := stepsOf (random (S (S n)))) in *.
    destruct (generateBezierPoints_run random
                (random n * vp_width size * 0.5)
                (random (S n) * vp_height size * 0.5)
                targetX targetY steps (S (S (S n))))
      as (c1x & c1y & c2x & c2y & Hrun); [lia|].
    set (points := map _ _) in Hrun.
    exists (S (S (S n)) + 4 + length points)%nat, (length points).
    split; [|split; [discriminate|]].
    + unfold performs. rewrite !bind_random. fold steps.
      rewrite (bind_silent _ _ _ _ _ Hrun).
      exact (for_of_performs _ move_step_performs points _).
    + intros _. subst points. rewrite length_map, length_seq. lia.
  - exists n, 0%nat. split; [apply ret_performs|]. split; [reflexivity|].
    intro H. now contradiction H.
Qed.

(** [links[Math.floor(r * links.length)]] is an element of the array. *)
Lemma element_at_random (links : list ElementHandle) (r : R) (n : nat) :
  0 <= r < 1 -> (0 < length links)%nat ->
  exists link,
    element_at links (Math_floor (r * INR (length links))) n
    = (Normal link, n, []).
Proof.
  intros [H0 H1] Hlen. unfold element_at, Math_floor.
  assert (0 < INR (length links)) as Hpos by now apply lt_0_INR.
  assert (0 <= Zfloor (r * INR (length links)))%Z as Hlo
    by (apply Zfloor_lub; cbn; nra).
  pose proof (Zfloor_bound (r * INR (length links))) as [Hf _].
  assert (IZR (Zfloor (r * INR (length links)))
          < IZR (Z.of_nat (length links))) as Hlt
    by (rewrite <- INR_IZR_INZ; nra).
  apply lt_IZR in Hlt.
  destruct (Z.ltb_spec (Zfloor (r * INR (length links))) 0); [lia|].
  destruct (nth_error links (Z.to_nat (Zfloor (r * INR (length links)))))
    as [link|] eqn:Hnth; [now exists link|].
  apply nth_error_None in Hnth. lia.
Qed.

(** The optional hover at the end of the advanced pattern: pointer moves
    at most, and none without a viewport. *)
Lemma hover_performs (n : nat) :
  exists n' moves,
    performs (bind (Math_random random) (fun r =>
                if Rlt_dec 0.5 r then
                  let links := queryAll page "a" in
                  if (0 <? length links)%nat then
                    bind (Math_random random) (fun r =>
                      bind (element_at links
                              (Math_floor (r * INR (length links))))
                        (fun randomLink =>
                           match boundingBox randomLink with
                           | Some box =>
                             bind (humanMouseMove random page
                                     (box_x box + box_width box / 2)
                                     (box_y box + box_height box / 2))
                                  (fun _ => randomDelay random 200 500)
                           | None => ret tt
                           end))
                  else ret tt
                else ret tt))
             n n' moves 0 0
    /\ (viewportSize page = None -> moves = 0%nat).
Proof.
  assert (forall m, exists n' moves, performs (ret tt) m n' moves 0 0
            /\ (viewportSize page = None -> moves = 0%nat)) as Hret.
  { intro m. exists m, 0%nat. split; [apply ret_performs|reflexivity]. }
  unfold performs at 1. rewrite bind_random.
  destruct (Rlt_dec 0.5 (random n)); [|apply Hret].
  cbv zeta.
  destruct (Nat.ltb_spec 0 (length (queryAll page "a"))) as [Hlen|];
    [|apply Hret].
  rewrite bind_random.
  destruct (element_at_random (queryAll page "a") (random (S n)) (S (S n))
              (Hrandom _) Hlen) as (link & Hlink).
  rewrite (bind_silent _ _ _ _ _ Hlink).
  destruct (boundingBox link) as [box|]; [|apply Hret].
  destruct (humanMouseMove_performs (box_x box + box_width box / 2)
              (box_y box + box_height box / 2) (S (S n)))
    as (n' & moves & Hmove & Hnone & _).
  exists (S (S n')), moves. split; [|exact Hnone].
  pose proof (bind_performs _ _ _ _ _ _ _ _ _ _ _ Hmove
                (randomDelay_performs 200 500 n')) as Hall.
  replace (moves + 0)%nat with moves in Hall by lia. exact Hall.
Qed.

(** The advanced pattern as a whole. *)
Lemma advanced_performs (options : HumanBehaviorOptions) (n : nat) :
  pattern options = "C"%string ->
  exists i j n' moves,
    performs (applyHumanBehavior random page options) n n' moves
             (scrollCountOf (random i) + scrollBackOf (random j))
             (scrollCountOf (random i))
    /\ (viewportSize page = None -> moves = 0%nat)
    /\ (viewportSize page <> None -> (11 <= moves)%nat).
Proof.
  intro Hpattern. unfold applyHumanBehavior. rewrite Hpattern.
  cbn [String.eqb Ascii.eqb Bool.eqb].
  pose proof (randomDelay_performs (minDelay options) (maxDelay options) n)
    as Hdelay.
  assert (exists n1 moves,
             performs
               match viewportSize page with
               | Some viewportSize =>
                 bind (Math_random random) (fun r =>
                   bind (Math_random random) (fun r0 =>
                     humanMouseMove random page
                       (r * vp_width viewportSize * 0.8
                        + vp_width viewportSize * 0.1)
                       (r0 * vp_height viewportSize * 0.8
                        + vp_height viewportSize * 0.1)))
               | None => ret tt
               end (S (S n)) n1 moves 0 0
             /\ (viewportSize page = None -> moves = 0%nat)
             /\ (viewportSize page <> None -> (11 <= moves)%nat))
    as (n1 & moves1 & Hmove & Hnone & Hsome).
  { destruct (viewportSize page) as [size|] eqn:Hsize.
    - destruct (humanMouseMove_performs
                  (random (S (S n)) * vp_width size * 0.8 + vp_width size * 0.1)
                  (random (S (S (S n))) * vp_height size * 0.8
                   + vp_height size * 0.1)
                  (S (S (S (S n)))))
        as (n1 & moves & Hm & _ & Hs).
      exists n1, moves. split; [|split; [discriminate|]].
      + unfold performs. rewrite !bind_random. exact Hm.
      + intros _. rewrite Hsize in Hs.
        assert (Some size <> None) as Hne by discriminate.
        specialize (Hs Hne). lia.
    - exists (S (S n)), 0%nat. split; [apply ret_performs|].
      split; [reflexivity|]. intro H. now contradiction H. }
  destruct (humanScroll_performs n1) as (j & n2 & Hscroll).
  pose proof (randomDelay_performs 1000 3000 n2) as Hdelay2.
  destruct (hover_performs (S (S n2))) as (n3 & moves2 & Hhover & Hnone2).
  exists n1, j, n3, (moves1 + moves2)%nat.
  split; [|split].
  - pose proof (bind_performs _ _ _ _ _ _ _ _ _ _ _ Hdelay2 Hhover) as H4.
    pose proof (bind_performs _ _ _ _ _ _ _ _ _ _ _ Hscroll H4) as H3.
    pose proof (bind_performs _ _ _ _ _ _ _ _ _ _ _ Hmove H3) as H2.
    pose proof (bind_performs _ _ _ _ _ _ _ _ _ _ _ Hdelay H2) as H1.
    destruct H1 as (t & Hrun & Hm & Hw & Hf).
    exists t. split; [exact Hrun|]. repeat split; lia.
  - intro H. rewrite (Hnone H), (Hnone2 H). reflexivity.
  - intro H. specialize (Hsome H). lia.
Qed.

(** Whatever the pattern, the behaviour completes normally. *)
Lemma applyHumanBehavior_completes (options : HumanBehaviorOptions) (n : nat) :
  completion_of (applyHumanBehavior random page options n) = Normal tt.
Proof.
  destruct (String.eqb (pattern options) "C") eqn:HC.
  - apply String.eqb_eq in HC.
    destruct (advanced_performs options n HC)
      as (i & j & n' & moves & (t & -> & _) & _).
    reflexivity.
  - unfold applyHumanBehavior. rewrite HC.
    destruct (String.eqb (pattern options) "A"); [reflexivity|].
    destruct (String.eqb (pattern options) "B"); [|reflexivity].
    destruct (humanScroll_performs (S (S n))) as (i & n1 & Hscroll).
    pose proof (bind_performs _ _ _ _ _ _ _ _ _ _ _ Hscroll
                  (randomDelay_performs 500 1500 n1)) as H2.
    pose proof (bind_performs _ _ _ _ _ _ _ _ _ _ _
                  (randomDelay_performs (minDelay options) (maxDelay options) n)
                  H2) as (t & -> & _).
    reflexivity.
Qed.

End BehaviourRuns.

Section AdvancedPatternProperties.
Import JS HumanBehavior Spec.
Local Open Scope R_scope.

(** C7, as the code has it.  Every plan of the advanced pattern (C)
    contains between 2 and 4 forward scroll actions and at most one more
    wheel action, the reverse scroll: 2 to 5 wheel actions in all.  It
    contains at least one pointer move (at least 11) when the page has a
    viewport size, and none when it has not. *)
Theorem applyHumanBehavior_advanced_plan
    (random : nat -> R) (page : Page) (options : HumanBehaviorOptions)
    (n : nat)
    (Hrandom : forall k, 0 <= random k < 1)
    (Hpattern : pattern options = "C"%string) :
  let t := trace_of (applyHumanBehavior random page options n) in
  (2 <= count is_forward_wheel t <= 4)%nat
  /\ (count is_forward_wheel t <= count is_wheel t
      <= count is_forward_wheel t + 1)%nat
  /\ (viewportSize page <> None -> (11 <= count is_move t)%nat)
  /\ (viewportSize page = None -> count is_move t = 0%nat).
Proof.
  destruct (advanced_performs random page Hrandom options n Hpattern)
    as (i & j & n' & moves & (t & Hrun & Hm & Hw & Hf) & Hnone & Hsome).
  rewrite Hrun. cbn [trace_of snd]. rewrite Hm, Hw, Hf.
  pose proof (scrollCountOf_bounds (random i) (Hrandom i)).
  pose proof (scrollBackOf_bounds (random j)).
  repeat split; try lia; assumption.
Qed.

Lemma applyHumanBehavior_advanced_plan_witness :
  let t := trace_of (applyHumanBehavior (constant (/ 2)) (desktopPage itemUrl)
                       (optionsWith "C") 0%nat) in
  (2 <= count is_forward_wheel t <= 4)%nat
  /\ (11 <= count is_move t)%nat.
Proof.
  destruct (applyHumanBehavior_advanced_plan (constant (/ 2))
              (desktopPage itemUrl) (optionsWith "C") 0%nat)
    as (Hf & _ & Hm & _).
  - intro k. unfold constant. lra.
  - reflexivity.
  - split; [exact Hf|]. apply Hm. discriminate.
Defined.

(** C7, as stated, fails: on a page without a viewport size and with every
    draw equal to 0.9, the plan has five wheel actions and no pointer
    move. *)
Lemma advanced_plan_five_wheels_no_move :
  let t := trace_of (applyHumanBehavior (constant 0.9) (blankPage itemUrl)
                       (optionsWith "C") 0%nat) in
  count is_wheel t = 5%nat /\ count is_move t = 0%nat.
Proof.
  assert (forall k, 0 <= constant 0.9 k < 1) as Hrandom
    by (intro k; unfold constant; lra).
  destruct (advanced_performs (constant 0.9) (blankPage itemUrl) Hrandom
              (optionsWith "C") 0%nat eq_refl)
    as (i & j & n' & moves & (t & Hrun & Hm & Hw & Hf) & Hnone & _).
  rewrite Hrun. cbn [trace_of snd]. rewrite Hm, Hw.
  split; [|now apply Hnone].
  unfold constant, scrollCountOf, scrollBackOf, Math_floor.
  assert (Zfloor (0.9 * 3) = 2%Z) as -> by (apply Zfloor_eq; lra).
  destruct (Rlt_dec 0.7 0.9) as [_|Hno]; [reflexivity|].
  exfalso. apply Hno. lra.
Qed.

End AdvancedPatternProperties.

Section ConfigurationProperties.
Import JS HumanBehavior Config Scraper Spec.

Lemma unknown_pattern_does_nothing (random : nat -> R) (page : Page)
    (options : HumanBehaviorOptions) (n : nat) :
  pattern options <> "A" -> pattern options <> "B" ->
  pattern options <> "C" ->
  applyHumanBehavior random page options n = (Normal tt, n, []).
Proof.
  intros HA HB HC. unfold applyHumanBehavior.
  apply String.eqb_neq in HA, HB, HC. now rewrite HA, HB, HC.
Qed.

Lemma initialize_completes (this : BaseScraper) :
  exists this',
    initialize this = Normal this'
    /\ page this' = true
    /\ config this' = config this
    /\ requestCount this' = requestCount this.
Proof. eexists. split; [reflexivity|]. now cbn. Qed.

(** C5, as the code has it.  A pattern identifier outside the recognized
    set A, B, C raises nothing at session setup: [loadConfig] copies it
    from the environment, the constructor keeps it and [initialize]
    completes with it.  At visit time [applyHumanBehavior] completes
    normally on it without any action and without a draw. *)
Theorem unknown_pattern_accepted (p : string)
    (HA : p <> "A") (HB : p <> "B") (HC : p <> "C") :
  (forall parseInt10 (env : gmap string string),
      env !! "HUMAN_BEHAVIOR_PATTERN" = Some p -> p <> "" ->
      hb_pattern (humanBehavior (loadConfig parseInt10 env)) = p)
  /\ (forall moduleConfig newSessionId now,
        hb_pattern (humanBehavior moduleConfig) = p ->
        exists this,
          initialize (constructor moduleConfig None newSessionId now)
          = Normal this
          /\ page this = true
          /\ hb_pattern (humanBehavior (config this)) = p)
  /\ (forall random page options n,
        pattern options = p ->
        applyHumanBehavior random page options n = (Normal tt, n, [])).
Proof.
  split; [|split].
  - intros parseInt10 env Henv Hne. cbn. rewrite Henv. cbn.
    apply String.eqb_neq in Hne. now rewrite Hne.
  - intros moduleConfig newSessionId now Hp.
    destruct (initialize_completes (constructor moduleConfig None newSessionId now))
      as (this & Hinit & Hpage & Hconfig & _).
    exists this. split; [exact Hinit|]. split; [exact Hpage|].
    now rewrite Hconfig.
  - intros random page options n Hp.
    apply unknown_pattern_does_nothing; now rewrite Hp.
Qed.

Lemma unknown_pattern_accepted_witness :
  (exists this,
      initialize (constructor (configWith "Z") None "sess-1" 0) = Normal this
      /\ page this = true
      /\ hb_pattern (humanBehavior (config this)) = "Z")
  /\ applyHumanBehavior (constant 0) (desktopPage itemUrl)
       (optionsWith "Z") 0%nat
     = (Normal tt, 0%nat, []).
Proof.
  destruct (unknown_pattern_accepted "Z") as (_ & Hsetup & Hvisit);
    [discriminate|discriminate|discriminate|].
  split.
  - apply Hsetup. reflexivity.
  - apply Hvisit. reflexivity.
Defined.

(** C5, as stated, fails: a session configured with the pattern ["Z"] is
    set up without an error, and its visit of the item page succeeds, the
    behaviour step having done nothing. *)
Lemma unknown_pattern_not_rejected :
  initialize (constructor (configWith "Z") None "sess-1" 0)
  = Normal (session "Z" 0 0)
  /\ applyHumanBehavior (constant 0) (desktopPage itemUrl)
       (optionsOf (humanBehavior (config (session "Z" 0 0)))) 0%nat
     = (Normal tt, 0%nat, [])
  /\ navigate WHATWG.hostname (session "Z" 0 0) itemUrl (visit (Normal tt) [200])
     = (Normal {| success := true;
                  banSignals := quiet false 400;
                  error := None |},
        session "Z" 1 10500).
Proof.
  split; [reflexivity|]. split.
  - apply unknown_pattern_does_nothing; discriminate.
  - unfold navigate, attempt. cbn [session page negb config goto visit].
    cbn [configWith humanBehavior hb_enabled].
    rewrite unknown_pattern_does_nothing by discriminate.
    reflexivity.
Qed.

End ConfigurationProperties.

Section SessionProperties.
Import JS BanDetector HumanBehavior Config Scraper Spec.

Variable URL_hostname : string -> option string.

Lemma navigate_of_attempt (this : BaseScraper) (url : string) (v : Visit) :
  page this = true ->
  exists result this',
    navigate URL_hostname this url v = (Normal result, this')
    /\ (forall counted signals,
          attempt URL_hostname this url v = Normal (counted, signals) ->
          this' = counted /\ banSignals result = signals
          /\ success result = negb (isBanned signals))
    /\ (forall e,
          attempt URL_hostname this url v = Throw e ->
          this' = this
          /\ banSignals result = quiet true (catchTime v - startTime v)
          /\ success result = false).
Proof.
  intro Hpage. unfold navigate. rewrite Hpage. cbn [negb].
  destruct (attempt URL_hostname this url v) as [[counted signals]|e].
  - destruct (isBanned signals) eqn:Hbanned;
      eexists; eexists; (split; [reflexivity|]); split.
    + intros ? ? [= <- <-]. now rewrite Hbanned.
    + discriminate.
    + intros ? ? [= <- <-]. now rewrite Hbanned.
    + discriminate.
  - eexists; eexists; (split; [reflexivity|]); split.
    + discriminate.
    + intros ? _. now cbn.
Qed.

Lemma attempt_cases (this : BaseScraper) (url : string) (v : Visit) :
  (exists signals,
      attempt URL_hostname this url v = Normal (counted this (endTime v), signals)
      /\ httpError signals = getHttpError (responses v))
  \/ (exists e, attempt URL_hostname this url v = Throw e).
Proof.
  unfold attempt.
  destruct (goto v); [|right; eauto].
  destruct (if hb_enabled _ then _ else _); [|right; eauto].
  destruct (detectBanSignals _ _ _ _ _); [|right; eauto].
  left. eexists. split; reflexivity.
Qed.

Lemma attempt_completes (this : BaseScraper) (url : string) (v : Visit)
    (expectedDomain currentDomain : string) :
  goto v = Normal tt -> (forall k, (0 <= random v k < 1)%R) ->
  URL_hostname url = Some expectedDomain ->
  URL_hostname (JS.url (loaded v)) = Some currentDomain ->
  exists signals,
    attempt URL_hostname this url v = Normal (counted this (endTime v), signals).
Proof.
  intros Hgoto Hbehaves He Hc. unfold attempt. rewrite Hgoto.
  assert ((if hb_enabled (humanBehavior (config this))
           then completion_of
                  (applyHumanBehavior (random v) (loaded v)
                     (optionsOf (humanBehavior (config this))) O)
           else Normal tt) = Normal tt) as ->.
  { destruct (hb_enabled _); [|reflexivity].
    now apply applyHumanBehavior_completes. }
  destruct (detectBanSignals_normal URL_hostname (loaded v) (detectTime v)
              (startTime v) url _ _ He Hc) as (signals & -> & _).
  eexists. reflexivity.
Qed.

(** C4, as the code has it.  A call of [navigate] on an initialized
    scraper returns a result.  When the visit completes the [try] block,
    be the verdict banned or not, [requestCount] has increased by exactly 1
    and [lastRequestTime] is the time after detection; when [page.goto]
    (or a later step) throws, the degraded result is returned and both
    fields are as before.  In no case does [requestCount] decrease or
    increase by more than 1. *)
Theorem navigate_counts_completed_visits
    (this : BaseScraper) (url : string) (v : Visit)
    (Hpage : page this = true) :
  exists result this',
    navigate URL_hostname this url v = (Normal result, this')
    /\ (forall expectedDomain currentDomain,
          goto v = Normal tt ->
          (forall k, (0 <= random v k < 1)%R) ->
          URL_hostname url = Some expectedDomain ->
          URL_hostname (JS.url (loaded v)) = Some currentDomain ->
          requestCount this' = requestCount this + 1
          /\ lastRequestTime this' = endTime v
          /\ success result = negb (isBanned (banSignals result))
          /\ httpError (banSignals result) = getHttpError (responses v))
    /\ (forall e,
          goto v = Throw e ->
          requestCount this' = requestCount this
          /\ lastRequestTime this' = lastRequestTime this
          /\ success result = false
          /\ contentMissing (banSignals result) = true
          /\ isBanned (banSignals result) = false
          /\ error result = Some (message_of e))
    /\ requestCount this <= requestCount this' <= requestCount this + 1.
Proof.
  destruct (navigate_of_attempt this url v Hpage)
    as (result & this' & Hnav & Hnormal & Hthrow).
  exists result, this'. split; [exact Hnav|]. split; [|split].
  - intros expectedDomain currentDomain Hgoto Hbehaves He Hc.
    destruct (attempt_completes this url v _ _ Hgoto Hbehaves He Hc)
      as (signals & Hattempt).
    destruct (attempt_cases this url v)
      as [(signals' & Hattempt' & Hhttp)|(e & Hattempt')];
      rewrite Hattempt in Hattempt'; [|discriminate].
    injection Hattempt' as <-.
    destruct (Hnormal _ _ Hattempt) as (-> & -> & ->).
    now cbn.
  - intros e Hgoto.
    assert (attempt URL_hostname this url v = Throw e) as Hattempt
      by (unfold attempt; now rewrite Hgoto).
    unfold navigate in Hnav. rewrite Hpage, Hattempt in Hnav.
    cbn [negb] in Hnav. injection Hnav as <- <-.
    now cbn.
  - destruct (attempt_cases this url v)
      as [(signals & Hattempt & _)|(e & Hattempt)].
    + destruct (Hnormal _ _ Hattempt) as (-> & _). cbn. lia.
    + destruct (Hthrow _ Hattempt) as (-> & _). lia.
Qed.

End SessionProperties.

Section SessionExamples.
Import JS BanDetector HumanBehavior Config Scraper Spec.

Lemma navigate_counts_completed_visits_witness :
  exists result this',
    navigate WHATWG.hostname (session "A" 3 9000) itemUrl
             (visit (Normal tt) [200; 403])
    = (Normal result, this')
    /\ requestCount this' = 4
    /\ lastRequestTime this' = 10500
    /\ success result = false
    /\ httpError (banSignals result) = Some 403.
Proof.
  destruct (navigate_counts_completed_visits WHATWG.hostname
              (session "A" 3 9000) itemUrl (visit (Normal tt) [200; 403]))
    as (result & this' & Hnav & Hdone & _ & _); [reflexivity|].
  exists result, this'. split; [exact Hnav|].
  destruct (Hdone "jp.mercari.com" "jp.mercari.com")
    as (Hcount & Hlast & Hsuccess & Hhttp);
    [reflexivity|intro k; change (0 <= 0 < 1)%R; lra
    |reflexivity|reflexivity|].
  repeat split; try assumption.
  rewrite Hsuccess. unfold isBanned. rewrite Hhttp.
  now destruct (captchaDetected (banSignals result)).
Defined.

(** C4, as stated, fails: when [page.goto] throws, the visit attempt
    leaves [requestCount] at 3 and [lastRequestTime] at 9000. *)
Lemma navigate_failed_visit_not_counted :
  navigate WHATWG.hostname (session "A" 3 9000) itemUrl
           (visit (Throw (Error "net::ERR_CONNECTION_REFUSED")) [])
  = (Normal {| success := false;
               banSignals := quiet true 500;
               error := Some "net::ERR_CONNECTION_REFUSED" |},
     session "A" 3 9000)
  /\ requestCount (session "A" 3 9000) <> requestCount (session "A" 3 9000) + 1.
Proof.
  split; [reflexivity|]. cbn. lia.
Qed.

End SessionExamples.


(** * Further properties of the code *)

Section IncludesProperties.
Import JS.

Lemma append_cons (c : ascii) (s t : string) :
  String c s ++ t = String c (s ++ t).
Proof. reflexivity. Qed.

Lemma append_nil (t : string) : "" ++ t = t.
Proof. reflexivity. Qed.

Lemma prefix_app (sub post : string) : String.prefix sub (sub ++ post) = true.
Proof.
  induction sub as [|c sub IH].
  - rewrite append_nil. now destruct post.
  - rewrite append_cons. cbn [String.prefix].
    destruct (ascii_dec c c); [exact IH|contradiction].
Qed.

Lemma prefix_split (sub s : string) :
  String.prefix sub s = true -> exists post, s = sub ++ post.
Proof.
  revert s. induction sub as [|c sub IH]; intros s H.
  - now exists s.
  - destruct s as [|c' s]; cbn [String.prefix] in H; [discriminate|].
    destruct (ascii_dec c c') as [<-|]; [|discriminate].
    destruct (IH s H) as (post & ->). now exists post.
Qed.

Lemma includes_app (pre sub post : string) :
  includes (pre ++ sub ++ post) sub = true.
Proof.
  induction pre as [|c pre IH].
  - rewrite append_nil.
    assert (String.prefix sub (sub ++ post) = true) as Hp by apply prefix_app.
    destruct (sub ++ post); cbn [includes]; now rewrite Hp.
  - rewrite append_cons. cbn [includes]. rewrite IH.
    now destruct (String.prefix sub _).
Qed.

Lemma includes_split (s sub : string) :
  includes s sub = true -> exists pre post, s = pre ++ sub ++ post.
Proof.
  induction s as [|c s IH]; cbn [includes].
  - destruct (String.prefix sub "") eqn:Hp; [|discriminate].
    intros _. destruct (prefix_split _ _ Hp) as (post & Hs).
    now exists "", post.
  - destruct (String.prefix sub (String c s)) eqn:Hp.
    + intros _. destruct (prefix_split _ _ Hp) as (post & Hs).
      now exists "", post.
    + intro H. destruct (IH H) as (pre & post & ->).
      now exists (String c pre), post.
Qed.

Lemma append_empty_r (s : string) : s ++ "" = s.
Proof.
  induction s as [|c s IH]; [reflexivity|].
  rewrite append_cons. now rewrite IH.
Qed.

End IncludesProperties.

Section DetectorEdges.
Import JS BanDetector Spec ContentPresence.

Variable URL_hostname : string -> option string.

(** X1. When the page is still at the expected URL, the redirect channel
    of [detectBanSignals] fires exactly when that URL itself contains one
    of the block-page fragments; [blockedUrl] is then that URL. *)
Theorem detectBanSignals_same_url
    (page : Page) (now startTime : Z) (expectedDomain : string)
    (Hhost : URL_hostname (url page) = Some expectedDomain) :
  exists signals,
    detectBanSignals URL_hostname page now startTime (url page)
    = Normal signals
    /\ unexpectedRedirect signals
       = existsb (includes (url page)) BLOCK_PAGE_PATTERNS
    /\ blockedUrl signals
       = (if existsb (includes (url page)) BLOCK_PAGE_PATTERNS
          then Some (url page) else None).
Proof.
  destruct (detectBanSignals_normal URL_hostname page now startTime (url page)
              _ _ Hhost Hhost)
    as (signals & Hrun & _ & _ & Hredirect & Hblocked & _).
  exists signals. split; [exact Hrun|].
  unfold domainMismatch in Hredirect.
  rewrite String.eqb_refl in Hredirect. cbn in Hredirect.
  rewrite orb_false_r in Hredirect.
  split; [exact Hredirect|]. now rewrite Hblocked, Hredirect.
Qed.

(** X2. On a current URL without block-page fragment, the redirect channel
    stays off exactly when the current host name contains the expected
    host name somewhere: a subdomain passes, and so does any foreign host
    whose name has the expected one inside it. *)
Theorem detectBanSignals_host_containment
    (page : Page) (now startTime : Z) (expectedUrl : string)
    (expectedDomain currentDomain : string)
    (He : URL_hostname expectedUrl = Some expectedDomain)
    (Hc : URL_hostname (url page) = Some currentDomain)
    (Hpath : existsb (includes (url page)) BLOCK_PAGE_PATTERNS = false) :
  exists signals,
    detectBanSignals URL_hostname page now startTime expectedUrl
    = Normal signals
    /\ (unexpectedRedirect signals = false
        <-> exists pre post,
              currentDomain = pre ++ expectedDomain ++ post).
Proof.
  destruct (detectBanSignals_normal URL_hostname page now startTime expectedUrl
              _ _ He Hc)
    as (signals & Hrun & _ & _ & Hredirect & _).
  exists signals. split; [exact Hrun|].
  rewrite Hredirect, Hpath. cbn [orb]. unfold domainMismatch. split.
  - intro H. apply andb_false_iff in H as [H|H].
    + apply negb_false_iff, String.eqb_eq in H as ->.
      exists "", "". now rewrite append_nil, append_empty_r.
    + apply negb_false_iff in H. now apply includes_split.
  - intros (pre & post & ->). rewrite includes_app. cbn.
    now rewrite andb_false_r.
Qed.

Variable trim : string -> string.

(** X3. [checkContentPresence] answers true exactly when one of the
    selectors resolves to an element whose text is set, not empty and not
    empty after trimming; the order of the selectors and selectors
    without such an element do not matter, and an empty list answers
    false. *)
Theorem checkContentPresence_exists (page : Page) (selectors : list string) :
  checkContentPresence trim page selectors = true
  <-> exists selector element text,
        In selector selectors
        /\ query page selector = Some element
        /\ textContent element = Some text
        /\ text <> "" /\ trim text <> "".
Proof.
  induction selectors as [|selector rest IH]; cbn [checkContentPresence].
  - split; [discriminate|]. now intros (? & ? & ? & [] & _).
  - assert (forall element,
               hasText trim (textContent element) = true
               <-> exists text, textContent element = Some text
                                /\ text <> "" /\ trim text <> "") as Htext.
    { intro element. unfold hasText.
      destruct (textContent element) as [text|].
      - rewrite andb_true_iff, negb_true_iff, String.eqb_neq, Nat.ltb_lt.
        split.
        + intros [Hne Hlen]. exists text. repeat split; trivial.
          intro Hempty. rewrite Hempty in Hlen. cbn in Hlen. lia.
        + intros (text' & [= <-] & Hne & Htrim). split; [exact Hne|].
          destruct (trim text); [contradiction|cbn; lia].
      - split; [discriminate|]. now intros (? & ? & _). }
    split.
    + destruct (query page selector) as [element|] eqn:Hq.
      * destruct (hasText trim (textContent element)) eqn:Hh.
        -- intros _. apply Htext in Hh as (text & Ht & Hne & Htrim).
           exists selector, element, text. repeat split; trivial. now left.
        -- intro H. apply IH in H as (s' & e' & t' & Hin & H').
           exists s', e', t'. split; [now right|exact H'].
      * intro H. apply IH in H as (s' & e' & t' & Hin & H').
        exists s', e', t'. split; [now right|exact H'].
    + intros (s' & e' & t' & [<-|Hin] & Hq & Ht & Hne & Htrim).
      * rewrite Hq.
        assert (hasText trim (textContent e') = true) as ->; [|reflexivity].
        apply Htext. now exists t'.
      * assert (checkContentPresence trim page rest = true) as Hrest.
        { apply IH. now exists s', e', t'. }
        destruct (query page selector) as [element|]; [|exact Hrest].
        now destruct (hasText trim (textContent element)).
Qed.

End DetectorEdges.

Section DetectorEdgeExamples.
Import JS BanDetector Spec ContentPresence.

Lemma detectBanSignals_same_url_witness :
  exists signals,
    detectBanSignals WHATWG.hostname
      (blankPage "https://jp.mercari.com/errors/m1") 1500 1000
      "https://jp.mercari.com/errors/m1"
    = Normal signals
    /\ unexpectedRedirect signals = true
    /\ blockedUrl signals = Some "https://jp.mercari.com/errors/m1".
Proof.
  apply (detectBanSignals_same_url WHATWG.hostname
           (blankPage "https://jp.mercari.com/errors/m1") 1500 1000
           "jp.mercari.com").
  reflexivity.
Defined.

Lemma detectBanSignals_host_containment_witness :
  exists signals,
    detectBanSignals WHATWG.hostname
      (blankPage "https://jp.mercari.com.example.net/item/m1") 1500 1000
      itemUrl
    = Normal signals
    /\ (unexpectedRedirect signals = false
        <-> exists pre post,
              "jp.mercari.com.example.net" = pre ++ "jp.mercari.com" ++ post).
Proof.
  apply (detectBanSignals_host_containment WHATWG.hostname
           (blankPage "https://jp.mercari.com.example.net/item/m1") 1500 1000
           itemUrl "jp.mercari.com" "jp.mercari.com.example.net");
    reflexivity.
Defined.

End DetectorEdgeExamples.

Section MonitorReports.
Import JS BanDetector.

Lemma isBlockingStatus_In (status : Z) :
  isBlockingStatus status = true <-> In status BLOCKING_STATUSES.
Proof.
  unfold isBlockingStatus. rewrite existsb_exists. split.
  - intros (s & Hin & Heq). apply Z.eqb_eq in Heq. now subst.
  - intro Hin. exists status. split; [exact Hin|apply Z.eqb_refl].
Qed.

Lemma getHttpError_app (responses more : list Z) :
  getHttpError (responses ++ more)
  = match getHttpError more with
    | Some status => Some status
    | None => getHttpError responses
    end.
Proof.
  induction more as [|last more IH] using rev_ind.
  - now rewrite app_nil_r.
  - rewrite app_assoc, !getHttpError_snoc, IH. unfold onResponse.
    destruct (isBlockingStatus last); [reflexivity|].
    now destruct (getHttpError more).
Qed.

(** X4. The response monitor reports [null] exactly when no observed
    status is one of the eight blocking codes; a status it reports was
    observed and is one of these codes, so that other error statuses such
    as 404 or 500 are never reported; and what a later batch of responses
    reports overrides what the earlier ones did. *)
Theorem getHttpError_reports (responses : list Z) :
  (getHttpError responses = None
   <-> existsb isBlockingStatus responses = false)
  /\ (forall status,
        getHttpError responses = Some status ->
        In status responses /\ In status BLOCKING_STATUSES)
  /\ (forall more,
        getHttpError (responses ++ more)
        = match getHttpError more with
          | Some status => Some status
          | None => getHttpError responses
          end).
Proof.
  split; [|split; [|intro more; apply getHttpError_app]].
  - split; [|apply getHttpError_quiet].
    induction responses as [|last responses IH] using rev_ind; [easy|].
    rewrite getHttpError_snoc, existsb_app. unfold onResponse. cbn [existsb].
    destruct (isBlockingStatus last); [discriminate|].
    intro H. now rewrite (IH H).
  - induction responses as [|last responses IH] using rev_ind; [easy|].
    intro status. rewrite getHttpError_snoc. unfold onResponse.
    destruct (isBlockingStatus last) eqn:Hlast.
    + intros [= <-]. split; [|now apply isBlockingStatus_In].
      apply in_or_app. right. now left.
    + intro H. destruct (IH _ H) as [Hin Hblocking].
      split; [|exact Hblocking]. apply in_or_app. now left.
Qed.

End MonitorReports.

Section DelayEdges.
Import JS HumanBehavior.
Local Open Scope R_scope.










End DelayEdges.

Section BehaviourTraces.
Import JS HumanBehavior Spec Expected HumanHover.
Local Open Scope R_scope.

Variable random : nat -> R.
Variable page : Page.
Hypothesis Hrandom : forall k, 0 <= random k < 1.

Lemma keeps_bind (P : Action -> Prop) (m k : M unit) (n : nat) :
  keeps P m n -> (forall n1, keeps P k n1) ->
  keeps P (bind m (fun _ => k)) n.
Proof.
  intros (n1 & t1 & H1 & HP1) Hk.
  destruct (Hk n1) as (n2 & t2 & H2 & HP2).
  exists n2, (t1 ++ t2)%list. unfold bind. rewrite H1, H2.
  split; [reflexivity|]. apply Forall_app. now split.
Qed.

Lemma keeps_repeat (P : Action -> Prop) (body : M unit) :
  (forall m, keeps P body m) -> forall k n, keeps P (repeat_ k body) n.
Proof.
  intros Hbody k. induction k as [|k IH]; intro n; cbn [repeat_].
  - exists n, []. now split.
  - apply keeps_bind; [apply Hbody|exact IH].
Qed.

Lemma randomDelay_keeps (P : Action -> Prop) (lo hi : Z) (n : nat) :
  (lo <= hi)%Z ->
  (forall ms : Z, (lo <= ms <= hi)%Z -> P (WaitForTimeout (IZR ms))) ->
  keeps P (randomDelay random (IZR lo) (IZR hi)) n.
Proof.
  intros Hle HP. exists (S (S n)). eexists. split; [apply randomDelay_run|].
  constructor; [|constructor]. apply HP. apply Math_round_between.
  apply delayOf_in_range. now apply IZR_le.
Qed.

Lemma scroll_wait (lo hi : Z) :
  (200 <= lo)%Z -> (hi <= 800)%Z ->
  forall ms : Z, (lo <= ms <= hi)%Z -> scrollAction (WaitForTimeout (IZR ms)).
Proof.
  intros Hlo Hhi ms [H1 H2]. cbn. split; apply IZR_le; lia.
Qed.

Lemma humanScroll_keeps (n : nat) : keeps scrollAction (humanScroll random) n.
Proof.
  unfold humanScroll, keeps. rewrite bind_random.
  apply keeps_bind.
  - apply keeps_repeat. intro m. unfold keeps. rewrite bind_random.
    apply keeps_bind.
    + exists (S m). eexists. split; [reflexivity|].
      constructor; [|constructor]. cbn. split; [reflexivity|]. left.
      pose proof (Hrandom m). lra.
    + intro n1. apply (randomDelay_keeps _ 300 800); [lia|].
      apply scroll_wait; lia.
  - intro n1. unfold keeps. rewrite bind_random.
    destruct (Rlt_dec 0.7 (random n1)).
    + rewrite bind_random. apply keeps_bind.
      * exists (S (S n1)). eexists. split; [reflexivity|].
        constructor; [|constructor]. cbn. split; [reflexivity|]. right.
        pose proof (Hrandom (S n1)). lra.
      * intro n2. apply (randomDelay_keeps _ 200 500); [lia|].
        apply scroll_wait; lia.
    + exists (S n1), []. now split.
Qed.

(** X7. Under a random source in [0, 1), [humanScroll] completes
    normally and all it does is bounded: it wheels the page down 2 to 4
    times by 100 to 400 each, then up at most once by 50 to 150, never
    sideways and never moving the pointer, and every pause lasts between
    200 and 800 ms. *)
Theorem humanScroll_bounded (n : nat) :
  exists n' t,
    humanScroll random n = (Normal tt, n', t)
    /\ Forall scrollAction t
    /\ (2 <= count is_forward_wheel t <= 4)%nat
    /\ (count is_forward_wheel t <= count is_wheel t
        <= count is_forward_wheel t + 1)%nat.
Proof.
  destruct (humanScroll_keeps n) as (n' & t & Hrun & Hall).
  destruct (humanScroll_performs random Hrandom n)
    as (i & n'' & t' & Hrun' & _ & Hw & Hf).
  rewrite Hrun in Hrun'. injection Hrun' as <- <-.
  exists n', t. split; [exact Hrun|]. split; [exact Hall|].
  rewrite Hw, Hf.
  pose proof (scrollCountOf_bounds (random n) (Hrandom n)).
  pose proof (scrollBackOf_bounds (random i)). lia.
Qed.

(** X8. The basic pattern (B) completes normally and never moves the
    pointer: its plan holds 2 to 4 forward wheel actions and at most one
    reverse one. *)
Theorem applyHumanBehavior_basic_plan (options : HumanBehaviorOptions)
    (n : nat) (Hpattern : pattern options = "B"%string) :
  exists n' t,
    applyHumanBehavior random page options n = (Normal tt, n', t)
    /\ count is_move t = 0%nat
    /\ (2 <= count is_forward_wheel t <= 4)%nat
    /\ (count is_forward_wheel t <= count is_wheel t
        <= count is_forward_wheel t + 1)%nat.
Proof.
  unfold applyHumanBehavior. rewrite Hpattern.
  cbn [String.eqb Ascii.eqb Bool.eqb].
  destruct (humanScroll_performs random Hrandom (S (S n)))
    as (i & n1 & Hscroll).
  pose proof (bind_performs _ _ _ _ _ _ _ _ _ _ _ Hscroll
                (randomDelay_performs random 500 1500 n1)) as H2.
  pose proof (bind_performs _ _ _ _ _ _ _ _ _ _ _
                (randomDelay_performs random (minDelay options)
                   (maxDelay options) n) H2)
    as (t & Hrun & Hm & Hw & Hf).
  exists (S (S n1)), t. split; [exact Hrun|].
  pose proof (scrollCountOf_bounds (random (S (S n))) (Hrandom _)).
  pose proof (scrollBackOf_bounds (random i)). lia.
Qed.

Lemma bind_normal {A B} (m : M A) (k : A -> M B) (n : nat)
    (a : A) (n1 : nat) (t1 : list Action)
    (r : Completion B) (n2 : nat) (t2 : list Action) :
  m n = (Normal a, n1, t1) -> k a n1 = (r, n2, t2) ->
  bind m k n = (r, n2, (t1 ++ t2)%list).
Proof. intros Hm Hk. unfold bind. now rewrite Hm, Hk. Qed.

Lemma positions_app (t1 t2 : list Action) :
  positions (t1 ++ t2) = (positions t1 ++ positions t2)%list.
Proof. apply flat_map_app. Qed.

(** The loop of [humanMouseMove] over the sampled points. *)
Lemma for_of_points (points : list Point) (n : nat) :
  exists t,
    for_of points (fun point =>
      bind (mouse_move (IZR (x point)) (IZR (y point))) (fun _ =>
        bind (Math_random random) (fun r => waitForTimeout (r * 30 + 10))))
      n
    = (Normal tt, (n + length points)%nat, t)
    /\ positions t = map positionOf points
    /\ Forall moveAction t
    /\ t = movesAndPauses points
             (map (fun i => random i * 30 + 10) (seq n (length points))).
Proof.
  revert n. induction points as [|p points IH]; intro n.
  - exists []. cbn. now rewrite Nat.add_0_r.
  - destruct (IH (S n)) as (t & Hrun & Hpos & Hall & Hshape).
    exists (MouseMove (IZR (x p)) (IZR (y p))
            :: WaitForTimeout (random n * 30 + 10) :: t).
    replace (n + length (p :: points))%nat with (S n + length points)%nat
      by (cbn; lia).
    split; [|split; [|split]].
    + cbn [for_of].
      exact (bind_normal _ _ n tt (S n)
               [MouseMove (IZR (x p)) (IZR (y p));
                WaitForTimeout (random n * 30 + 10)]
               _ _ _ eq_refl Hrun).
    + cbn. now rewrite <- Hpos.
    + constructor; [exact I|]. constructor; [|exact Hall].
      cbn. pose proof (Hrandom n). lra.
    + cbn [length seq map movesAndPauses]. now rewrite <- Hshape.
Qed.

Lemma pauses_bounded (n count : nat) :
  Forall (fun ms => 10 <= ms < 40)
         (map (fun i => random i * 30 + 10) (seq n count)).
Proof.
  apply List.Forall_map, List.Forall_forall. intros i _.
  pose proof (Hrandom i). lra.
Qed.

Lemma humanMouseMove_path (size : ViewportSize) (targetX targetY : R)
    (n : nat) :
  viewportSize page = Some size ->
  0 <= vp_width size -> 0 <= vp_height size ->
  exists n' t points startX startY,
    humanMouseMove random page targetX targetY n = (Normal tt, n', t)
    /\ positions t = map positionOf points
    /\ Forall moveAction t
    /\ (11 <= length points <= 30)%nat
    /\ 0 <= startX <= vp_width size / 2
    /\ 0 <= startY <= vp_height size / 2
    /\ head points
       = Some {| x := Math_round startX; y := Math_round startY |}
    /\ last points
       = Some {| x := Math_round targetX; y := Math_round targetY |}
    /\ exists pauses,
         t = movesAndPauses points pauses
         /\ length pauses = length points
         /\ Forall (fun ms => 10 <= ms < 40) pauses
         /\ pauses = map (fun i => random i * 30 + 10)
                         (seq (n + 7) (length points)).
Proof.
  intros Hsize Hw Hh. unfold humanMouseMove. rewrite Hsize.
  pose proof (stepsOf_bounds (random (S (S n))) (Hrandom _)) as Hsteps.
  set (steps := stepsOf (random (S (S n)))) in *.
  set (startX := random n * vp_width size * 0.5).
  set (startY := random (S n) * vp_height size * 0.5).
  destruct (generateBezierPoints_run random startX startY targetX targetY
              steps (S (S (S n))))
    as (c1x & c1y & c2x & c2y & Hrun); [lia|].
  set (points := map _ _) in Hrun.
  destruct (for_of_points points (S (S (S n)) + 4))
    as (t & Hloop & Hpos & Hall & Hshape).
  exists (S (S (S n)) + 4 + length points)%nat, t, points, startX, startY.
  split; [|split; [exact Hpos|split; [exact Hall|]]].
  - rewrite !bind_random. fold startX startY steps.
    rewrite (bind_silent _ _ _ _ _ Hrun). exact Hloop.
  - pose proof (Hrandom n). pose proof (Hrandom (S n)).
    split; [subst points; rewrite length_map, length_seq; lia|].
    split; [unfold startX; nra|]. split; [unfold startY; nra|].
    split; [|split].
    + subst points.
      rewrite (samples_head (pointAt startX startY c1x c1y c2x c2y
                               targetX targetY) steps).
      now rewrite pointAt_start.
    + subst points.
      rewrite (samples_last (pointAt startX startY c1x c1y c2x c2y
                               targetX targetY) steps) by lia.
      now rewrite pointAt_end.
    + eexists. split; [exact Hshape|].
      split; [now rewrite length_map, length_seq|].
      split; [apply pauses_bounded|].
      now replace (S (S (S n)) + 4)%nat with (n + 7)%nat by lia.
Qed.

(** X9. Without a viewport [humanMouseMove] does nothing and draws
    nothing.  In a viewport it moves the pointer through 11 to 30
    positions and does nothing else than to move and, after each move, to
    pause once for 10 to 40 ms: its trace is move, pause, move, pause, ...
    with as many pauses as positions, each pause being 10 ms plus 30 ms
    times a draw of its own.  The first position is a rounded
    point of the top-left quarter of the viewport, wherever the pointer
    was, and the last one is the rounded target. *)
Theorem humanMouseMove_reaches_target (targetX targetY : R) (n : nat) :
  (viewportSize page = None ->
   humanMouseMove random page targetX targetY n = (Normal tt, n, []))
  /\ (forall size,
        viewportSize page = Some size ->
        0 <= vp_width size -> 0 <= vp_height size ->
        exists n' t points startX startY,
          humanMouseMove random page targetX targetY n = (Normal tt, n', t)
          /\ positions t = map positionOf points
          /\ Forall moveAction t
          /\ (11 <= length points <= 30)%nat
          /\ 0 <= startX <= vp_width size / 2
          /\ 0 <= startY <= vp_height size / 2
          /\ head points
             = Some {| x := Math_round startX; y := Math_round startY |}
          /\ last points
             = Some {| x := Math_round targetX; y := Math_round targetY |}
          /\ exists pauses,
               t = movesAndPauses points pauses
               /\ length pauses = length points
               /\ Forall (fun ms => 10 <= ms < 40) pauses
               /\ pauses = map (fun i => random i * 30 + 10)
                               (seq (n + 7) (length points))).
Proof.
  split.
  - intro Hnone. unfold humanMouseMove. now rewrite Hnone.
  - intros size Hsize Hwidth Hheight.
    now apply humanMouseMove_path.
Qed.

(** X10. [humanHover] does nothing at all, and draws nothing, when the
    selector finds no element or the element has no bounding box.
    Otherwise, in a viewport, the pointer ends on the rounded target, a
    point of the central part of the box: between 0.3 and 0.7 of its
    width and of its height. *)
Theorem humanHover_targets_centre (selector : string) (n : nat) :
  (query page selector = None -> 
   humanHover random page selector n = (Normal tt, n, []))
  /\ (forall element,
        query page selector = Some element -> boundingBox element = None ->
        humanHover random page selector n = (Normal tt, n, []))
  /\ (forall element box size,
        query page selector = Some element ->
        boundingBox element = Some box ->
        viewportSize page = Some size ->
        0 <= vp_width size -> 0 <= vp_height size ->
        0 <= box_width box -> 0 <= box_height box ->
        exists n' t targetX targetY,
          humanHover random page selector n = (Normal tt, n', t)
          /\ box_x box + 0.3 * box_width box <= targetX
             <= box_x box + 0.7 * box_width box
          /\ box_y box + 0.3 * box_height box <= targetY
             <= box_y box + 0.7 * box_height box
          /\ last (positions t)
             = Some (IZR (Math_round targetX), IZR (Math_round targetY))).
Proof.
  unfold humanHover. split; [|split].
  - now intros ->.
  - now intros element -> ->.
  - intros element box size -> -> Hsize Hw Hh Hbw Hbh.
    set (targetX := box_x box + box_width box * (0.3 + random n * 0.4)).
    set (targetY := box_y box + box_height box * (0.3 + random (S n) * 0.4)).
    destruct (humanMouseMove_path size targetX targetY (S (S n)) Hsize Hw Hh)
      as (n1 & t & points & sx & sy & Hrun & Hpos & _ & _ & _ & _ & _
          & Hlast & _).
    exists (S (S n1)). eexists. exists targetX, targetY.
    pose proof (Hrandom n). pose proof (Hrandom (S n)).
    split; [|split; [unfold targetX; nra|split; [unfold targetY; nra|]]].
    + rewrite !bind_random. fold targetX targetY. unfold bind.
      rewrite Hrun, randomDelay_run. reflexivity.
    + rewrite positions_app, Hpos. cbn [positions flat_map app].
      rewrite app_nil_r. change (map positionOf points)
        with (positionOf <$> points).
      now rewrite fmap_last, Hlast.
Qed.

End BehaviourTraces.

Section BehaviourTraceExamples.
Import JS HumanBehavior Spec Expected HumanHover.
Local Open Scope R_scope.

Lemma constant_half_in_range : forall k, 0 <= constant (/ 2) k < 1.
Proof. intro k. unfold constant. lra. Qed.

Lemma humanScroll_bounded_witness :
  exists n' t,
    humanScroll (constant (/ 2)) 0%nat = (Normal tt, n', t)
    /\ Forall scrollAction t
    /\ (2 <= count is_forward_wheel t <= 4)%nat
    /\ (count is_forward_wheel t <= count is_wheel t
        <= count is_forward_wheel t + 1)%nat.
Proof.
  apply (humanScroll_bounded (constant (/ 2)) constant_half_in_range 0%nat).
Defined.

Lemma applyHumanBehavior_basic_plan_witness :
  exists n' t,
    applyHumanBehavior (constant (/ 2)) (desktopPage itemUrl)
                       (optionsWith "B") 0%nat
    = (Normal tt, n', t)
    /\ count is_move t = 0%nat
    /\ (2 <= count is_forward_wheel t <= 4)%nat
    /\ (count is_forward_wheel t <= count is_wheel t
        <= count is_forward_wheel t + 1)%nat.
Proof.
  apply (applyHumanBehavior_basic_plan (constant (/ 2)) (desktopPage itemUrl)
           constant_half_in_range (optionsWith "B") 0%nat).
  reflexivity.
Defined.

Lemma humanMouseMove_reaches_target_witness :
  exists n' t points pauses,
    humanMouseMove (constant (/ 2)) (desktopPage itemUrl) 300 400 0%nat
    = (Normal tt, n', t)
    /\ t = movesAndPauses points pauses
    /\ length pauses = length points
    /\ last points = Some {| x := 300; y := 400 |}.
Proof.
  destruct (humanMouseMove_reaches_target (constant (/ 2))
              (desktopPage itemUrl) constant_half_in_range
              300 400 0%nat) as [_ Hmove].
  destruct (Hmove {| vp_width := 1920; vp_height := 1080 |})
    as (n' & t & points & sx & sy & Hrun & _ & _ & _ & _ & _ & _ & Hlast
        & pauses & Hshape & Hlen & _ & _);
    [reflexivity|cbn; lra|cbn; lra|].
  exists n', t, points, pauses.
  split; [exact Hrun|]. split; [exact Hshape|]. split; [exact Hlen|].
  now rewrite Hlast, !Math_round_IZR.
Defined.

Lemma humanHover_targets_centre_witness :
  humanHover (constant (/ 2)) buttonPage "a" 0%nat = (Normal tt, 0%nat, [])
  /\ exists n' t targetX targetY,
       humanHover (constant (/ 2)) buttonPage "button" 0%nat
       = (Normal tt, n', t)
       /\ 124 <= targetX <= 156
       /\ 212 <= targetY <= 228
       /\ last (positions t)
          = Some (IZR (Math_round targetX), IZR (Math_round targetY)).
Proof.
  split.
  - apply (humanHover_targets_centre (constant (/ 2)) buttonPage
             constant_half_in_range "a" 0%nat).
    reflexivity.
  - destruct (humanHover_targets_centre (constant (/ 2)) buttonPage
                constant_half_in_range "button" 0%nat) as (_ & _ & Hbox).
    destruct (Hbox _ _ _ eq_refl eq_refl eq_refl)
      as (n' & t & tx & ty & Hrun & Hx & Hy & Hlast);
      [cbn; lra|cbn; lra|cbn; lra|cbn; lra|].
    exists n', t, tx, ty. cbn in Hx, Hy.
    repeat split; try assumption; lra.
Defined.

End BehaviourTraceExamples.

Section ConfigSwitches.
Import JS Config.

Lemma notFalse_false (v : option string) :
  notFalse v = false <-> v = Some "false".
Proof.
  unfold notFalse. destruct v as [s|]; [|easy].
  rewrite negb_false_iff, String.eqb_eq. split; [now intros ->|now intros [=]].
Qed.

Lemma orDefault_unset (v : option string) (d : string) :
  v = None \/ v = Some "" -> orDefault v d = d.
Proof. now intros [-> | ->]. Qed.

Lemma orDefault_set (s d : string) : s <> "" -> orDefault (Some s) d = s.
Proof.
  intro H. apply String.eqb_neq in H. unfold orDefault. now rewrite H.
Qed.

(** X11. In [loadConfig] a switch (headless, stealth, human behaviour,
    logging) is off only for the exact value ["false"]: unset, empty or
    spelt otherwise it is on.  A proxy is configured exactly when
    [PROXY_SERVER] is set and not empty, with the credentials as they are
    in the environment; the pattern, the log level and the output
    directory fall back to their defaults when unset or empty. *)
Theorem loadConfig_switches (parseInt10 : string -> R)
    (env : gmap string string) :
  let c := loadConfig parseInt10 env in
  (headless c = false <-> env !! "HEADLESS" = Some "false")
  /\ (stealthEnabled c = false <-> env !! "STEALTH_ENABLED" = Some "false")
  /\ (hb_enabled (humanBehavior c) = false
      <-> env !! "HUMAN_BEHAVIOR_ENABLED" = Some "false")
  /\ (log_enabled (logging c) = false
      <-> env !! "LOGGING_ENABLED" = Some "false")
  /\ (proxy c = None
      <-> env !! "PROXY_SERVER" = None \/ env !! "PROXY_SERVER" = Some "")
  /\ (forall s, env !! "PROXY_SERVER" = Some s -> s <> "" ->
        proxy c = Some {| server := s;
                          username := env !! "PROXY_USER";
                          password := env !! "PROXY_PASS" |})
  /\ (env !! "HUMAN_BEHAVIOR_PATTERN" = None
      \/ env !! "HUMAN_BEHAVIOR_PATTERN" = Some "" ->
      hb_pattern (humanBehavior c) = "B")
  /\ (env !! "LOG_LEVEL" = None \/ env !! "LOG_LEVEL" = Some "" ->
      log_level (logging c) = "info")
  /\ (env !! "LOG_OUTPUT_DIR" = None \/ env !! "LOG_OUTPUT_DIR" = Some "" ->
      log_outputDir (logging c) = "./logs").
Proof.
  cbn. repeat split; try apply notFalse_false; try apply orDefault_unset.
  - destruct (env !! "PROXY_SERVER") as [s|]; [|now left].
    destruct (String.eqb_spec s ""); [subst; now right|discriminate].
  - intros [-> | ->]; reflexivity.
  - intros s -> Hs. apply String.eqb_neq in Hs. now rewrite Hs.
Qed.

End ConfigSwitches.

Section SessionLifecycle.
Import JS BanDetector HumanBehavior Config Scraper ScraperLifecycle Mercari
  Spec Expected.

Variable URL_hostname : string -> option string.
Variable trim : string -> string.
Variable disabled : ElementHandle -> bool.

Lemma navigate_closed (this : BaseScraper) (url : string) (v : Visit) :
  page this = false ->
  navigate URL_hostname this url v
  = (Throw (Error "Page not initialized"), this).
Proof. intro H. unfold navigate. now rewrite H. Qed.

Lemma close_clears (this : BaseScraper) :
  close this
  = {| browser := false; context := false; page := false;
       config := config this; sessionId := sessionId this;
       requestCount := requestCount this;
       sessionStartTime := sessionStartTime this;
       lastRequestTime := lastRequestTime this |}.
Proof.
  destruct this as [b c p cfg sid cnt start last].
  now destruct b, c, p.
Qed.

(** X12. [navigate] and [scrape] need the page: on a scraper that was
    constructed but not initialized, or that was closed, they throw
    ["Page not initialized"] and change nothing; [createContext] without
    a browser throws ["Browser not initialized"].  [close] clears the
    three handles (page, context and browser), whichever of them were set,
    and changes nothing else: the counters, the clock readings, the session
    id and the configuration stay; closing twice is closing once. *)
Theorem page_lifecycle (this : BaseScraper) (url : string) (v : Visit) :
  (page this = false ->
   navigate URL_hostname this url v
   = (Throw (Error "Page not initialized"), this))
  /\ navigate URL_hostname (close this) url v
     = (Throw (Error "Page not initialized"), close this)
  /\ scrape trim disabled URL_hostname (close this) url v
     = (Throw (Error "Page not initialized"), close this)
  /\ (forall moduleConfig customConfig newSessionId now,
        navigate URL_hostname
          (constructor moduleConfig customConfig newSessionId now) url v
        = (Throw (Error "Page not initialized"),
           constructor moduleConfig customConfig newSessionId now))
  /\ (browser this = false ->
      createContext this = Throw (Error "Browser not initialized"))
  /\ close (close this) = close this
  /\ close this
     = {| browser := false; context := false; page := false;
          config := config this; sessionId := sessionId this;
          requestCount := requestCount this;
          sessionStartTime := sessionStartTime this;
          lastRequestTime := lastRequestTime this |}
  /\ page (close this) = false
  /\ context (close this) = false
  /\ browser (close this) = false
  /\ requestCount (close this) = requestCount this
  /\ lastRequestTime (close this) = lastRequestTime this
  /\ config (close this) = config this.
Proof.
  assert (page (close this) = false) as Hclosed
    by now rewrite close_clears.
  split; [apply navigate_closed|].
  split; [now apply navigate_closed|].
  split; [unfold scrape; now rewrite navigate_closed|].
  split; [intros; now apply navigate_closed|].
  split; [intro H; unfold createContext; now rewrite H|].
  split; [rewrite !close_clears; now cbn|].
  split; [apply close_clears|].
  rewrite !close_clears. now cbn.
Qed.

Lemma navigate_step (this : BaseScraper) (url : string) (v : Visit) :
  exists r this',
    navigate URL_hostname this url v = (r, this')
    /\ requestCount this'
       = requestCount this + (if completed r then 1 else 0)
    /\ (completed r = false -> this' = this)
    /\ page this' = page this
    /\ config this' = config this
    /\ sessionId this' = sessionId this.
Proof.
  unfold navigate. destruct (page this) eqn:Hpage; cbn [negb].
  2:{ eexists; eexists. split; [reflexivity|].
      cbn [completed]. repeat split; try reflexivity; try assumption. lia. }
  destruct (attempt_cases URL_hostname this url v)
    as [(signals & -> & _)|(e & ->)].
  - destruct (isBanned signals) eqn:Hbanned;
      eexists; eexists; (split; [reflexivity|]);
      cbn [completed success banSignals]; rewrite Hbanned; cbn;
      repeat split; try discriminate; assumption.
  - eexists; eexists. split; [reflexivity|].
    cbn. repeat split; try assumption; try reflexivity. lia.
Qed.

(** X13. Over any sequence of calls of [navigate], [requestCount] grows
    by the number of calls that ended in a success or a ban, and by
    nothing for the calls that failed or threw; the session identifier,
    the configuration and the page handle stay as they are, and when no
    call was counted the scraper is unchanged. *)
Theorem navigateAll_counts (this : BaseScraper)
    (visits : list (string * Visit)) :
  exists results this',
    navigateAll URL_hostname this visits = (results, this')
    /\ length results = length visits
    /\ requestCount this'
       = requestCount this + Z.of_nat (length (List.filter completed results))
    /\ (List.filter completed results = [] -> this' = this)
    /\ sessionId this' = sessionId this
    /\ config this' = config this
    /\ page this' = page this.
Proof.
  revert this. induction visits as [|[url v] visits IH]; intro this.
  - exists [], this. cbn. repeat split; lia.
  - destruct (navigate_step this url v)
      as (r & this1 & Hnav & Hcount & Hsame & Hpage & Hconfig & Hid).
    destruct (IH this1)
      as (rs & this2 & Hall & Hlen & Hcount2 & Hsame2 & Hid2 & Hconfig2
          & Hpage2).
    exists (r :: rs), this2. cbn [navigateAll]. rewrite Hnav, Hall.
    split; [reflexivity|]. split; [cbn; now rewrite Hlen|].
    cbn [List.filter]. destruct (completed r) eqn:Hr.
    + split; [rewrite Hcount2, Hcount; cbn [length]; lia|].
      split; [discriminate|]. repeat split; congruence.
    + split; [rewrite Hcount2, Hcount; lia|].
      split; [intro H; rewrite (Hsame2 H); now apply Hsame|].
      repeat split; congruence.
Qed.

Lemma getBanReason_quiet (signals : BanSignals) :
  getBanReason signals = None -> isBanned signals = false.
Proof.
  unfold getBanReason, isBanned.
  destruct (captchaDetected signals), (httpError signals),
    (jsChallenge signals), (unexpectedRedirect signals);
    cbn; intro; try reflexivity; discriminate.
Qed.

Lemma detectBanSignals_content (p : Page) (now startTime : Z)
    (url : string) (signals : BanSignals) :
  detectBanSignals URL_hostname p now startTime url = Normal signals ->
  contentMissing signals = false
  /\ captchaDetected signals
     = existsb (fun selector => found (query p selector)) CAPTCHA_SELECTORS.
Proof.
  unfold detectBanSignals.
  set (captcha := existsb (fun selector => found (query p selector))
                          CAPTCHA_SELECTORS).
  destruct (URL_hostname url); [|discriminate].
  destruct (URL_hostname (JS.url p)); [|discriminate].
  intros [= <-].
  destruct captcha;
    repeat match goal with
           | |- context [if ?b then _ else _] => destruct b
           end; now cbn.
Qed.

Lemma attempt_signals (this : BaseScraper) (url : string) (v : Visit)
    (this' : BaseScraper) (signals : BanSignals) :
  attempt URL_hostname this url v = Normal (this', signals) ->
  contentMissing signals = false
  /\ httpError signals = getHttpError (responses v)
  /\ captchaDetected signals
     = existsb (fun selector => found (query (loaded v) selector))
               CAPTCHA_SELECTORS.
Proof.
  unfold attempt. destruct (goto v); [|discriminate].
  destruct (if hb_enabled _ then _ else _); [|discriminate].
  destruct (detectBanSignals _ _ _ _ _) as [detected|] eqn:Hd; [|discriminate].
  intros [= _ <-]. apply detectBanSignals_content in Hd as [Hc Hcap].
  now cbn.
Qed.

Lemma navigate_result_sound (this : BaseScraper) (url : string)
    (v : Visit) (result : ScrapeResult) (this' : BaseScraper) :
  navigate URL_hostname this url v = (Normal result, this') ->
  (success result = true <-> error result = None)
  /\ (success result = true ->
      isBanned (banSignals result) = false
      /\ contentMissing (banSignals result) = false)
  /\ (isBanned (banSignals result) = true -> success result = false).
Proof.
  unfold navigate.
  destruct (page this); cbn [negb]; [|discriminate].
  destruct (attempt URL_hostname this url v) as [[counted signals]|e] eqn:Ha.
  - apply attempt_signals in Ha as (Hcontent & _).
    destruct (isBanned signals) eqn:Hbanned; intros [= <- <-];
      cbn [success error banSignals]; rewrite ?Hbanned.
    + split; [split; discriminate|]. split; [discriminate|reflexivity].
    + split; [now split|]. split; [now split|discriminate].
  - intros [= <- <-]. cbn. repeat split; try discriminate; reflexivity.
Qed.

(** X14. A result of [navigate] is consistent: it is a success exactly
    when it carries no error, a success is never banned and never has
    [contentMissing] set, a banned result is a failure whose error is
    ["BAN detected: "] followed by the reason of [getBanReason], and a
    failure that is not banned is the degraded record with
    [contentMissing] set. *)
Theorem navigate_result_consistent (this : BaseScraper) (url : string)
    (v : Visit) (result : ScrapeResult) (this' : BaseScraper)
    (Hnav : navigate URL_hostname this url v = (Normal result, this')) :
  (success result = true <-> error result = None)
  /\ (success result = true ->
      isBanned (banSignals result) = false
      /\ contentMissing (banSignals result) = false)
  /\ (isBanned (banSignals result) = true ->
      success result = false
      /\ exists reason,
           getBanReason (banSignals result) = Some reason
           /\ error result = Some ("BAN detected: " ++ reason))
  /\ (success result = false -> isBanned (banSignals result) = false ->
      banSignals result = quiet true (catchTime v - startTime v)).
Proof.
  revert Hnav. unfold navigate.
  destruct (page this); cbn [negb]; [|discriminate].
  destruct (attempt URL_hostname this url v) as [[counted signals]|e] eqn:Ha.
  - apply attempt_signals in Ha as (Hcontent & _).
    destruct (isBanned signals) eqn:Hbanned; intros [= <- <-];
      cbn [success error banSignals]; rewrite ?Hbanned.
    + split; [split; discriminate|]. split; [discriminate|].
      split; [|discriminate]. intros _. split; [reflexivity|].
      destruct (getBanReason signals) as [reason|] eqn:Hreason.
      * now exists reason.
      * apply getBanReason_quiet in Hreason. congruence.
    + split; [now split|]. split; [now split|]. split; discriminate.
  - intros [= <- <-]. cbn. repeat split; try discriminate; reflexivity.
Qed.

End SessionLifecycle.

Section SessionVerdictExamples.
Import JS BanDetector HumanBehavior Config Scraper Spec Expected.
Local Open Scope R_scope.

Lemma constant_zero_in_range : forall k, 0 <= constant 0 k < 1.
Proof. intro k. unfold constant. lra. Qed.

Lemma navigate_result_consistent_witness :
  isBanned (quiet false 400) = false
  /\ contentMissing (quiet false 400) = false.
Proof.
  destruct (navigate_result_consistent WHATWG.hostname (session "A" 3 9000)
              itemUrl itemVisit
              {| success := true; banSignals := quiet false 400;
                 error := None |}
              (session "A" 4 10500)) as (_ & Hsuccess & _).
  - vm_compute. reflexivity.
  - now apply Hsuccess.
Defined.

End SessionVerdictExamples.

Section BlockedResponses.
Import JS BanDetector HumanBehavior Config Scraper Spec Expected.

Variable URL_hostname : string -> option string.

(** X15. When the visit goes through and the monitor holds a blocking
    status, [navigate] counts the visit and reports a failure whose
    record carries that status and whose error is ["BAN detected: "]
    followed by ["CAPTCHA"] if a CAPTCHA marker is on the page, and by
    ["HTTP "] and the status otherwise, whatever the other channels
    say. *)
Theorem navigate_blocked_response
    (this : BaseScraper) (url : string) (v : Visit)
    (expectedDomain currentDomain : string) (status : Z)
    (Hpage : page this = true)
    (Hgoto : goto v = Normal tt)
    (Hrandom : forall k, (0 <= random v k < 1)%R)
    (He : URL_hostname url = Some expectedDomain)
    (Hc : URL_hostname (JS.url (loaded v)) = Some currentDomain)
    (Hstatus : getHttpError (responses v) = Some status) :
  exists result,
    navigate URL_hostname this url v
    = (Normal result, counted this (endTime v))
    /\ success result = false
    /\ httpError (banSignals result) = Some status
    /\ error result
       = Some ("BAN detected: " ++
               if existsb (fun selector => found (query (loaded v) selector))
                          CAPTCHA_SELECTORS
               then "CAPTCHA" else "HTTP " ++ toString status).
Proof.
  destruct (attempt_completes URL_hostname this url v _ _ Hgoto Hrandom He Hc)
    as (signals & Hattempt).
  destruct (attempt_signals URL_hostname _ _ _ _ _ Hattempt)
    as (_ & Hhttp & Hcaptcha).
  rewrite Hstatus in Hhttp.
  assert (isBanned signals = true) as Hbanned.
  { unfold isBanned. rewrite Hhttp.
    now destruct (captchaDetected signals). }
  unfold navigate. rewrite Hpage, Hattempt, Hbanned. cbn [negb].
  eexists. split; [reflexivity|]. cbn [success banSignals error].
  repeat split; [exact Hhttp|].
  unfold getBanReason. rewrite Hhttp, <- Hcaptcha.
  now destruct (captchaDetected signals).
Qed.

End BlockedResponses.

Section BlockedResponseExamples.
Import JS BanDetector HumanBehavior Config Scraper Spec Expected.

Lemma navigate_blocked_response_witness :
  exists result,
    navigate WHATWG.hostname (session "A" 3 9000) itemUrl
             (visit (Normal tt) [200; 403; 200])
    = (Normal result, counted (session "A" 3 9000) 10500)
    /\ success result = false
    /\ httpError (banSignals result) = Some 403
    /\ error result = Some "BAN detected: HTTP 403".
Proof.
  apply (navigate_blocked_response WHATWG.hostname (session "A" 3 9000)
           itemUrl (visit (Normal tt) [200; 403; 200])
           "jp.mercari.com" "jp.mercari.com" 403);
    try reflexivity.
  apply constant_zero_in_range.
Defined.

End BlockedResponseExamples.

Section PriceExtraction.
Import JS BanDetector Config Scraper ScraperLifecycle Mercari.











End PriceExtraction.

Section ScrapeProperties.
Import JS BanDetector Config Scraper ScraperLifecycle Mercari ContentPresence
  Spec Expected.

Variable trim : string -> string.
Variable disabled : ElementHandle -> bool.
Variable URL_hostname : string -> option string.

(** The content check and the title extraction read the same texts. *)
Lemma content_present_title (this : BaseScraper) (p : Page)
    (selectors : list string) :
  page this = true ->
  checkContentPresence trim p selectors = true ->
  exists t, extractFromSelectors trim this p selectors = Some t /\ t <> "".
Proof.
  intro Hpage. induction selectors as [|selector rest IH]; [discriminate|].
  cbn [checkContentPresence extractFromSelectors].
  unfold extractText. rewrite Hpage. cbn [negb].
  destruct (query p selector) as [element|]; [|exact IH].
  destruct (hasText trim (textContent element)) eqn:Htext; [|exact IH].
  intros _. unfold hasText in Htext.
  destruct (textContent element) as [text|]; [|discriminate].
  exists (trim text). split; [reflexivity|].
  apply andb_true_iff in Htext as [_ Hlen]. apply Nat.ltb_lt in Hlen.
  intro Hempty. rewrite Hempty in Hlen. cbn in Hlen. lia.
Qed.

Lemma navigate_keeps_page (this : BaseScraper) (url : string) (v : Visit)
    (result : ScrapeResult) (this' : BaseScraper) :
  navigate URL_hostname this url v = (Normal result, this') ->
  page this' = true.
Proof.
  destruct (navigate_step URL_hostname this url v)
    as (r & this1 & Hnav & _ & _ & Hpage & _).
  rewrite Hnav. intros [= -> ->]. rewrite Hpage.
  revert Hnav. unfold navigate.
  destruct (page this); [reflexivity|discriminate].
Qed.

(** X17. A result of [scrape] is consistent.  A success is not banned,
    has [contentMissing] off and no error, and carries a product for the
    requested URL with a title that is not empty (its price may be
    missing).  A banned result is a failure without a product.  A failure
    with a product is the content failure: not banned, [contentMissing]
    set, and the error ["Content extraction failed - page may be
    blocked"]. *)
Theorem scrape_result_consistent (this : BaseScraper) (url : string)
    (v : Visit) (result : ProductResult) (this' : BaseScraper)
    (Hscrape : scrape trim disabled URL_hostname this url v
               = (Normal result, this')) :
  (scraped result = true ->
   isBanned (signals result) = false
   /\ contentMissing (signals result) = false
   /\ failure result = None
   /\ exists product t,
        data result = Some product
        /\ product_url product = url
        /\ title product = Some t /\ t <> "")
  /\ (isBanned (signals result) = true ->
      scraped result = false /\ data result = None)
  /\ (scraped result = false -> data result <> None ->
      isBanned (signals result) = false
      /\ contentMissing (signals result) = true
      /\ failure result
         = Some "Content extraction failed - page may be blocked")
  /\ (scraped result = false -> failure result <> None).
Proof.
  revert Hscrape. unfold scrape.
  destruct (navigate URL_hostname this url v) as [[navResult|e] this1] eqn:Hnav;
    [|discriminate].
  pose proof (navigate_keeps_page _ _ _ _ _ Hnav) as Hpage.
  destruct (navigate_result_sound URL_hostname _ _ _ _ _ Hnav)
    as (Herror & Hsuccess & Hbanned).
  destruct (success navResult) eqn:Hs; cbn [negb].
  - destruct (Hsuccess eq_refl) as [Hnot Hcontent].
    assert (forall b, isBanned (withContentMissing b (banSignals navResult))
                      = false) as Hwith by (intro b; exact Hnot).
    destruct (checkContentPresence trim (loaded v) SELECTORS_title)
      eqn:Hpresent; cbn [negb]; intros [= <- <-];
      cbn [scraped data signals failure].
    + split; [|split; [|split]]; try discriminate.
      * intros _. split; [apply Hwith|]. split; [reflexivity|].
        split; [reflexivity|].
        destruct (content_present_title this1 (loaded v) SELECTORS_title
                    Hpage Hpresent) as (t & Ht & Hne).
        eexists; exists t. split; [reflexivity|]. now cbn.
      * rewrite Hwith. discriminate.
    + split; [discriminate|]. split; [rewrite Hwith; discriminate|].
      split; [|discriminate]. intros _ _. now rewrite Hwith.
  - intros [= <- <-]. cbn [scraped data signals failure].
    split; [discriminate|]. split; [now intros _|].
    split; [now intros _ []|]. intros _ Hnone.
    apply Herror in Hnone. congruence.
Qed.

End ScrapeProperties.

Section BatchProperties.
Import JS BanDetector Config Scraper ScraperLifecycle Mercari ContentPresence
  Cli Spec Expected.

Variable trim : string -> string.
Variable disabled : ElementHandle -> bool.
Variable URL_hostname : string -> option string.

Lemma schedule_cons (url : string) (rest : list string) (ms : R) :
  rest <> [] ->
  schedule (url :: rest) ms = Scraped url :: Slept ms :: schedule rest ms.
Proof. now destruct rest. Qed.

Lemma batchLoop_stops (urls : list string) :
  forall (this : BaseScraper) (i : nat) (worlds : nat -> Visit) (ms : R)
         (results : gmap string ProductResult),
  exists r this' events k,
    batchLoop trim disabled URL_hostname this urls i worlds ms results
    = (r, this', events)
    /\ (k <= length urls)%nat
    /\ (urls <> [] -> (1 <= k)%nat)
    /\ events = schedule (take k urls) ms
    /\ forall res,
         r = Normal res ->
         (forall url, is_Some (res !! url)
                      <-> is_Some (results !! url) \/ In url (take k urls))
         /\ (size res <= size results + k)%nat
         /\ ((k < length urls)%nat ->
             exists u result,
               last (take k urls) = Some u
               /\ res !! u = Some result
               /\ captchaFailure result = true).
Proof.
  induction urls as [|url rest IH]; intros this i worlds ms results.
  - exists (Normal results), this, [], 0%nat.
    split; [reflexivity|]. split; [reflexivity|]. split; [congruence|].
    split; [reflexivity|]. intros res [= <-].
    split; [intro url; cbn; tauto|]. split; [lia|]. cbn. lia.
  - cbn [batchLoop].
    destruct (scrape trim disabled URL_hostname this url (worlds i))
      as [[result|e] this1].
    2:{ exists (Throw e), this1, [Scraped url], 1%nat.
        split; [reflexivity|]. split; [cbn; lia|]. split; [lia|].
        split; [reflexivity|]. discriminate. }
    assert (forall u, is_Some (<[url:=result]> results !! u)
                      <-> is_Some (results !! u) \/ In u [url]) as Hone.
    { intro u. rewrite lookup_insert_is_Some. cbn.
      destruct (decide (url = u)); tauto. }
    assert (size (<[url:=result]> results) <= size results + 1)%nat as Hsize.
    { rewrite map_size_insert. destruct (results !! url); cbn; lia. }
    assert (exists r this' events k,
               (Normal (<[url:=result]> results), this1, [Scraped url])
               = (r, this', events)
               /\ (k <= length (url :: rest))%nat
               /\ (url :: rest <> [] -> (1 <= k)%nat)
               /\ events = schedule (take k (url :: rest)) ms
               /\ forall res,
                    r = Normal res ->
                    (forall u, is_Some (res !! u)
                               <-> is_Some (results !! u)
                                   \/ In u (take k (url :: rest)))
                    /\ (size res <= size results + k)%nat
                    /\ ((k < length (url :: rest))%nat ->
                        captchaFailure result = true ->
                        exists u result',
                          last (take k (url :: rest)) = Some u
                          /\ res !! u = Some result'
                          /\ captchaFailure result' = true)) as Hstop.
    { exists (Normal (<[url:=result]> results)), this1, [Scraped url], 1%nat.
      split; [reflexivity|]. split; [cbn; lia|]. split; [lia|].
      split; [reflexivity|]. intros res [= <-].
      split; [exact Hone|]. split; [exact Hsize|].
      intros _ Hcaptcha. exists url, result.
      split; [reflexivity|]. split; [apply lookup_insert_eq|exact Hcaptcha]. }
    fold (captchaFailure result).
    destruct (captchaFailure result) eqn:Hcaptcha.
    { destruct Hstop as (r & this' & events & k & Heq & Hk & Hpos & Hev & Hres).
      exists r, this', events, k. split; [exact Heq|]. split; [exact Hk|].
      split; [exact Hpos|]. split; [exact Hev|]. intros res Hr.
      destruct (Hres res Hr) as (Hdom & Hsz & Hlast).
      split; [exact Hdom|]. split; [exact Hsz|].
      intro Hlt. now apply Hlast. }
    destruct rest as [|url2 rest'].
    { exists (Normal (<[url:=result]> results)), this1, [Scraped url], 1%nat.
      split; [reflexivity|]. split; [cbn; lia|]. split; [lia|].
      split; [reflexivity|]. intros res [= <-].
      split; [exact Hone|]. split; [exact Hsize|]. cbn. lia. }
    clear Hstop.
    destruct (IH this1 (S i) worlds ms (<[url:=result]> results))
      as (r & this2 & events & k & Hrun & Hk & Hpos & Hevents & Hres).
    rewrite Hrun.
    assert (1 <= k)%nat as Hk1 by (apply Hpos; discriminate).
    exists r, this2, (Scraped url :: Slept ms :: events), (S k).
    split; [reflexivity|]. split; [cbn [length] in *; lia|].
    split; [lia|]. split.
    { cbn [take]. rewrite schedule_cons; [now rewrite Hevents|].
      destruct k; [lia|discriminate]. }
    intros res Hr. destruct (Hres res Hr) as (Hdom & Hsz & Hlast).
    split; [|split].
    + intro u. rewrite Hdom, Hone. cbn [take In]. tauto.
    + lia.
    + intro Hlt. cbn [length] in Hlt.
      destruct Hlast as (u & result' & Hu & Hlook & Hcap);
        [cbn [length]; lia|].
      exists u, result'. split; [|now split].
      cbn [take]. destruct k; [lia|]. cbn [take] in *. exact Hu.
Qed.

Lemma countResults_total (results : gmap string ProductResult) :
  (fst (countResults results) + snd (countResults results))%nat
  = size results.
Proof.
  unfold countResults.
  apply (map_fold_weak_ind
           (fun (counts : nat * nat) (m : gmap string ProductResult) =>
              (fst counts + snd counts)%nat = size m)).
  - now rewrite map_size_empty.
  - intros url result m counts Hnone IH.
    rewrite map_size_insert_None by exact Hnone.
    destruct (scraped result && bool_decide (is_Some (data result)));
      cbn [fst snd]; lia.
Qed.

(** X18. [batchScrape] visits a prefix of the list of URLs, in order,
    sleeping the interval between two visits and never after the last
    one, and closes the scraper at the end.  Its results hold exactly the
    visited URLs, one entry per distinct URL, and the successes and
    failures counted over them add up to the number of entries, at most
    the number of visits.  When it stops before the end of the list, the
    last visit was a failure with a CAPTCHA detected: a ban of another
    kind does not stop it. *)
Theorem batchScrape_stops_at_captcha (moduleConfig : ScraperConfig)
    (newSessionId : string) (now : Z) (urls : list string) (ms : R)
    (worlds : nat -> Visit) :
  exists r scraper events k,
    batchScrape trim disabled URL_hostname moduleConfig newSessionId now
                urls ms worlds
    = (r, scraper, events)
    /\ (k <= length urls)%nat
    /\ (urls <> [] -> (1 <= k)%nat)
    /\ events = schedule (take k urls) ms
    /\ page scraper = false
    /\ forall results,
         r = Normal results ->
         (forall url, is_Some (results !! url) <-> In url (take k urls))
         /\ (fst (countResults results) + snd (countResults results))%nat
            = size results
         /\ (size results <= k)%nat
         /\ ((k < length urls)%nat ->
             exists u result,
               last (take k urls) = Some u
               /\ results !! u = Some result
               /\ captchaFailure result = true).
Proof.
  unfold batchScrape. cbn [initialize constructor createContext negb browser].
  match goal with
  | |- context [batchLoop _ _ _ ?this _ _ _ _ _] =>
    destruct (batchLoop_stops urls this 0%nat worlds ms ∅)
      as (r & this' & events & k & Hrun & Hk & Hpos & Hevents & Hres)
  end.
  rewrite Hrun. exists r, (close this'), events, k.
  split; [reflexivity|]. split; [exact Hk|]. split; [exact Hpos|].
  split; [exact Hevents|]. split; [now rewrite close_clears|].
  intros results Hr. destruct (Hres results Hr) as (Hdom & Hsize & Hlast).
  split; [|split; [apply countResults_total|split; [|exact Hlast]]].
  - intro url. rewrite Hdom, lookup_empty. split; [|now right].
    intros [[x Hx]|H]; [discriminate|exact H].
  - rewrite map_size_empty in Hsize. lia.
Qed.

End BatchProperties.

Section ScrapeExamples.
Import JS BanDetector Config Scraper ScraperLifecycle Mercari Spec Expected.

Lemma scrape_result_consistent_witness :
  isBanned (quiet false 400) = false
  /\ contentMissing (quiet false 400) = false
  /\ exists product t,
       Some {| product_url := "https://jp.mercari.com/item/m1";
               title := Some "Camera"; price := None; isSoldOut := false;
               statusText := "販売中"; seller := None;
               description := None |}
       = Some product
       /\ product_url product = "https://jp.mercari.com/item/m1"
       /\ title product = Some t /\ t <> "".
Proof.
  destruct (scrape_result_consistent noTrim neverDisabled WHATWG.hostname
              (session "A" 3 9000) "https://jp.mercari.com/item/m1" itemVisit
              {| scraped := true;
                 data :=
                   Some {| product_url := "https://jp.mercari.com/item/m1";
                           title := Some "Camera"; price := None;
                           isSoldOut := false; statusText := "販売中";
                           seller := None; description := None |};
                 signals := quiet false 400;
                 failure := None |}
              (session "A" 4 10500)) as (Hsuccess & _).
  - vm_compute. reflexivity.
  - destruct (Hsuccess eq_refl) as (Hbanned & Hcontent & _ & Hproduct).
    split; [exact Hbanned|]. split; [exact Hcontent|exact Hproduct].
Defined.

End ScrapeExamples.

Section CommandLine.
Import JS Config Cli Mercari Expected.

Variable parseInt10 : string -> R.

Lemma flagOrUrl_urls (arg : string) (st : Parsed) :
  urls (flagOrUrl arg st)
  = (urls st ++ if startsWithHttp arg then [arg] else [])%list
  /\ untouched (settings st) (settings (flagOrUrl arg st))
  /\ interval (flagOrUrl arg st) = interval st.
Proof.
  unfold flagOrUrl, startsWithHttp, untouched.
  destruct (String.eqb_spec arg "--no-stealth") as [->|_];
    [cbn; now rewrite app_nil_r|].
  destruct (String.eqb_spec arg "--test-rate-limit") as [->|_];
    [cbn; now rewrite app_nil_r|].
  destruct (String.prefix "http" arg); cbn; [tauto|].
  now rewrite app_nil_r.
Qed.

Lemma untouched_refl (c : ScraperConfig) : untouched c c.
Proof. now unfold untouched. Qed.

Lemma untouched_trans (c1 c2 c3 : ScraperConfig) :
  untouched c1 c2 -> untouched c2 c3 -> untouched c1 c3.
Proof. unfold untouched. intuition congruence. Qed.

Lemma parseArgs_urls (n : nat) :
  forall (args : list string) (st : Parsed),
    (length args <= n)%nat ->
    exists added,
      urls (parseArgs parseInt10 args st) = (urls st ++ added)%list
      /\ sublist added args
      /\ Forall (fun u => startsWithHttp u = true) added
      /\ untouched (settings st) (settings (parseArgs parseInt10 args st))
      /\ (existsb takesValue args = false ->
          added = List.filter startsWithHttp args
          /\ interval (parseArgs parseInt10 args st) = interval st).
Proof.
  induction n as [|n IH]; intros args st Hlen.
  - destruct args; [|cbn in Hlen; lia].
    exists []. cbn. rewrite app_nil_r.
    repeat split; try constructor; apply untouched_refl.
  - destruct args as [|arg rest].
    { exists []. cbn. rewrite app_nil_r.
      repeat split; try constructor; apply untouched_refl. }
    assert (exists added,
               urls (parseArgs parseInt10 rest (flagOrUrl arg st))
               = (urls st ++ added)%list
               /\ sublist added (arg :: rest)
               /\ Forall (fun u => startsWithHttp u = true) added
               /\ untouched (settings st)
                    (settings (parseArgs parseInt10 rest (flagOrUrl arg st)))
               /\ (existsb takesValue (arg :: rest) = false ->
                   added = List.filter startsWithHttp (arg :: rest)
                   /\ interval (parseArgs parseInt10 rest (flagOrUrl arg st))
                      = interval st)) as Hplain.
    { destruct (IH rest (flagOrUrl arg st)) as (added & Hu & Hsub & Hall & Hun & Hno);
        [cbn in Hlen; lia|].
      destruct (flagOrUrl_urls arg st) as (Hu0 & Hun0 & Hint0).
      exists ((if startsWithHttp arg then [arg] else []) ++ added)%list.
      split; [now rewrite Hu, Hu0, app_assoc|].
      split; [|split; [|split]].
      - destruct (startsWithHttp arg); cbn;
          [now apply sublist_skip|now apply sublist_cons].
      - apply Forall_app. split; [|exact Hall].
        destruct (startsWithHttp arg) eqn:Hh; now repeat constructor.
      - exact (untouched_trans _ _ _ Hun0 Hun).
      - cbn [existsb List.filter]. intro H.
        apply orb_false_iff in H as [_ H].
        destruct (Hno H) as [-> Hint].
        split; [now destruct (startsWithHttp arg)|congruence]. }
    cbn [parseArgs]. destruct rest as [|next rest']; [exact Hplain|].
    destruct (truthy next); [|exact Hplain].
    assert (forall st',
               urls st' = urls st -> untouched (settings st) (settings st') ->
               takesValue arg = true ->
               exists added,
                 urls (parseArgs parseInt10 rest' st')
                 = (urls st ++ added)%list
                 /\ sublist added (arg :: next :: rest')
                 /\ Forall (fun u => startsWithHttp u = true) added
                 /\ untouched (settings st)
                      (settings (parseArgs parseInt10 rest' st'))
                 /\ (existsb takesValue (arg :: next :: rest') = false ->
                     added = List.filter startsWithHttp (arg :: next :: rest')
                     /\ interval (parseArgs parseInt10 rest' st')
                        = interval st)) as Hvalue.
    { intros st' Hu' Hun' Htakes.
      destruct (IH rest' st') as (added & Hu & Hsub & Hall & Hun & _);
        [cbn in Hlen; lia|].
      exists added. split; [now rewrite Hu, Hu'|].
      split; [now do 2 apply sublist_cons|]. split; [exact Hall|].
      split; [exact (untouched_trans _ _ _ Hun' Hun)|].
      cbn [existsb]. rewrite Htakes. discriminate. }
    destruct (String.eqb_spec arg "--interval") as [->|_].
    { apply Hvalue; [reflexivity|apply untouched_refl|reflexivity]. }
    destruct (String.eqb_spec arg "--pattern") as [->|_].
    { apply Hvalue; [reflexivity|now unfold untouched|reflexivity]. }
    destruct (String.eqb_spec arg "--headless") as [->|_].
    { apply Hvalue; [reflexivity|now unfold untouched|reflexivity]. }
    exact Hplain.
Qed.






End CommandLine.

Section MainDispatch.
Import JS Config Cli Mercari Expected.

Variable parseInt10 : string -> R.

(** X20. [main] prints the usage text exactly for an empty command line
    and exits for want of a URL exactly when the arguments are not empty
    and no URL was collected.  Every URL it goes on to scrape or to test
    is an argument that starts with ["http"]; the batch mode gets at
    least two URLs, in the order of the command line, and the rate-limit
    test gets the first URL only. *)
Theorem main_dispatch (args : list string) (moduleConfig : ScraperConfig) :
  let st := parseArgs parseInt10 args
              {| urls := []; interval := 5000; testRateLimit := false;
                 settings := moduleConfig |} in
  (fst (main parseInt10 args moduleConfig) = Usage <-> args = [])
  /\ (fst (main parseInt10 args moduleConfig) = NoUrls
      <-> args <> [] /\ urls st = [])
  /\ (forall url,
        fst (main parseInt10 args moduleConfig) = RunRateLimitTest url ->
        head (urls st) = Some url
        /\ startsWithHttp url = true /\ In url args)
  /\ (forall url,
        fst (main parseInt10 args moduleConfig) = ScrapeSingleUrl url ->
        urls st = [url] /\ startsWithHttp url = true /\ In url args)
  /\ (forall us ms,
        fst (main parseInt10 args moduleConfig) = ScrapeMultipleUrls us ms ->
        us = urls st /\ ms = interval st
        /\ (2 <= length us)%nat
        /\ sublist us args
        /\ Forall (fun u => startsWithHttp u = true) us).
Proof.
  cbv zeta.
  destruct (parseArgs_urls parseInt10 (length args) args
              {| urls := []; interval := 5000; testRateLimit := false;
                 settings := moduleConfig |} (le_n _))
    as (added & Hu & Hsub & Hall & _).
  cbn [urls app] in Hu.
  assert (forall u, In u added -> startsWithHttp u = true /\ In u args)
    as Hin.
  { intros u Hu'. split; [now apply (proj1 (List.Forall_forall _ _) Hall)|].
    clear -Hsub Hu'. induction Hsub as [|x l1 l2 _ IH|x l1 l2 _ IH].
    - contradiction.
    - destruct Hu' as [<-|Hu']; [now left|right; now apply IH].
    - right. now apply IH. }
  unfold main. destruct args as [|arg rest].
  { cbn. repeat split; try discriminate; try tauto. }
  set (st := parseArgs parseInt10 (arg :: rest) _) in *.
  rewrite Hu in *. clearbody st.
  destruct added as [|url others].
  { cbn. repeat split; try discriminate. }
  destruct (testRateLimit st).
  { cbn [fst]. split; [split; discriminate|].
    split; [split; [discriminate|now intros [_ ?]]|].
    split; [|split; discriminate].
    intros u [= <-]. split; [reflexivity|]. apply Hin. now left. }
  destruct others as [|url2 others].
  { cbn [fst]. split; [split; discriminate|].
    split; [split; [discriminate|now intros [_ ?]]|].
    split; [discriminate|]. split; [|discriminate].
    intros u [= <-]. split; [reflexivity|]. apply Hin. now left. }
  cbn [fst]. split; [split; discriminate|].
  split; [split; [discriminate|now intros [_ ?]]|].
  split; [discriminate|]. split; [discriminate|].
  intros us ms [= <- <-].
  repeat split; trivial. cbn. lia.
Qed.

End MainDispatch.

Section RateLimitTestProperties.
Import JS BanDetector Config Scraper ScraperLifecycle Mercari Cli Expected.

Variable trim : string -> string.
Variable disabled : ElementHandle -> bool.
Variable URL_hostname : string -> option string.













End RateLimitTestProperties.
